(** * Drift detector of the ML-pipeline example: a shallow embedding

    Source: examples/ml-pipeline/monitoring/collectors/drift_detector.py
    (class [DriftDetector]).

    Conventions of the embedding.
    - Python [int] is [Z]; [//] is floor division ([Z.div]); [len] is
      [Z.of_nat (length _)].
    - Python [float] is modelled by a rational ([Q]); scores never leave the
      range in which the float operations used here ([1.0 - p], comparison)
      agree with the rational ones up to rounding.
    - A Python [dict] with string keys is an insertion-ordered association
      list ([Dict.t]): iteration order is insertion order, assignment to an
      existing key keeps its position.
    - A method of the class is a computation in the monad [M]: it threads the
      detector object ([self]) and the outside world (log records, files,
      gauge registry), and ends in a value or in a raised exception.
    - Calls into third-party libraries (pandas, scipy, scikit-learn,
      prometheus push, the file system, matplotlib) are answered by an
      environment [Env]; every such call may raise. *)

From Stdlib Require Import List String ZArith QArith Lia Lqa Bool.
Import ListNotations.
Local Open Scope Z_scope.


(** ** Python values and sequences *)

Module Py.

(** The values an observation may carry ([Any] in the source). *)
Inductive value : Type :=
| PyNone
| PyBool (b : bool)
| PyInt (z : Z)
| PyFloat (q : Q)
| PyStr (s : string).

(** [isinstance(v, (int, float))]; [bool] is a subclass of [int]. *)
Definition isinstance_int_float (v : value) : bool :=
  match v with
  | PyBool _ | PyInt _ | PyFloat _ => true
  | PyNone | PyStr _ => false
  end.

Definition len {A} (l : list A) : Z := Z.of_nat (List.length l).

(** [l[i:]]: a negative start counts from the end and is clamped at the
    beginning; a start past the end gives the empty list. *)
Definition slice_from {A} (i : Z) (l : list A) : list A :=
  let start := if i <? 0 then Z.max 0 (len l + i) else Z.min i (len l) in
  skipn (Z.to_nat start) l.

(** [min(a, b)] and [a // b] on integers. *)
Definition min (a b : Z) : Z := Z.min a b.
Definition floordiv (a b : Z) : Z := a / b.

End Py.

(** ** Insertion-ordered dictionaries with string keys *)

Module Dict.

Definition t (V : Type) : Type := list (string * V).

Fixpoint get {V} (k : string) (d : t V) : option V :=
  match d with
  | [] => None
  | (k', v) :: r => if String.eqb k k' then Some v else get k r
  end.

(** [d[k] = v] *)
Fixpoint set {V} (k : string) (v : V) (d : t V) : t V :=
  match d with
  | [] => [(k, v)]
  | (k', v') :: r =>
      if String.eqb k k' then (k, v) :: r else (k', v') :: set k v r
  end.

(** [k in d] *)
Definition mem {V} (k : string) (d : t V) : bool :=
  match get k d with Some _ => true | None => false end.

Definition keys {V} (d : t V) : list string := map fst d.

(** [for k in d: d[k] = f(d[k])] *)
Definition map_values {V W} (f : V -> W) (d : t V) : t W :=
  map (fun kv => (fst kv, f (snd kv))) d.

End Dict.

(** ** The detector object *)

(** A reference sample is a numpy array of column values. *)
Definition DataFrame : Type := Dict.t (list Py.value).

(** [sklearn.ensemble.IsolationForest]: constructed, then fitted. *)
Inductive IsolationForest : Type :=
| Unfitted
| Fitted (training : DataFrame).

Record DriftDetector : Type := mkDetector {
  model_name : string;
  model_version : string;
  reference_data_path : option string;
  metrics_store : string;
  push_gateway_url : option string;
  drift_threshold : Q;
  window_size : Z;
  reference_features : Dict.t (list Py.value);
  reference_predictions : list Py.value;
  current_features : Dict.t (list Py.value);
  current_predictions : list Py.value;
  isolation_forest : option IsolationForest
}.

Definition set_current (cf : Dict.t (list Py.value)) (cp : list Py.value)
    (d : DriftDetector) : DriftDetector :=
  mkDetector (model_name d) (model_version d) (reference_data_path d)
    (metrics_store d) (push_gateway_url d) (drift_threshold d) (window_size d)
    (reference_features d) (reference_predictions d) cf cp
    (isolation_forest d).

Definition set_reference (rf : Dict.t (list Py.value)) (rp : list Py.value)
    (d : DriftDetector) : DriftDetector :=
  mkDetector (model_name d) (model_version d) (reference_data_path d)
    (metrics_store d) (push_gateway_url d) (drift_threshold d) (window_size d)
    rf rp (current_features d) (current_predictions d) (isolation_forest d).

Definition set_forest (f : option IsolationForest) (d : DriftDetector)
    : DriftDetector :=
  mkDetector (model_name d) (model_version d) (reference_data_path d)
    (metrics_store d) (push_gateway_url d) (drift_threshold d) (window_size d)
    (reference_features d) (reference_predictions d) (current_features d)
    (current_predictions d) f.

(** ** Buffer operations (pure part of the class) *)

(** [buffer_size = min(100, self.window_size // 10)] *)
Definition buffer_size (d : DriftDetector) : Z :=
  Py.min 100 (Py.floordiv (window_size d) 10).

(** One sequence in [_reset_current_data]:
    [if len(s) > buffer_size: s = s[-buffer_size:] else: s = []]. *)
Definition trim {A} (b : Z) (s : list A) : list A :=
  if Py.len s >? b then Py.slice_from (- b) s else [].

(** [DriftDetector._reset_current_data] *)
Definition _reset_current_data (d : DriftDetector) : DriftDetector :=
  let b := buffer_size d in
  set_current (Dict.map_values (trim b) (current_features d))
              (trim b (current_predictions d)) d.

(** The loop of [add_observation] over [features.items()]. *)
Fixpoint append_features (features : list (string * Py.value))
    (cf : Dict.t (list Py.value)) : Dict.t (list Py.value) :=
  match features with
  | [] => cf
  | (feature_name, feature_value) :: rest =>
      let cf' :=
        if Py.isinstance_int_float feature_value then
          match Dict.get feature_name cf with
          | Some s => Dict.set feature_name (s ++ [feature_value]) cf
          | None => Dict.set feature_name [feature_value] cf
          end
        else cf in
      append_features rest cf'
  end.

(** Lines 163-172 of [add_observation]: the two appends. *)
Definition record_observation (features : Dict.t Py.value)
    (prediction : Py.value) (d : DriftDetector) : DriftDetector :=
  set_current (append_features features (current_features d))
              (current_predictions d ++ [prediction]) d.

(** The test of line 175:
    [len(self.current_predictions) >= self.window_size]. *)
Definition is_ready (d : DriftDetector) : bool :=
  Py.len (current_predictions d) >=? window_size d.

(** ** Exceptions, the outside world and the method monad *)

(** An instance of a subclass of [Exception]: class name and message. *)
Record exn : Type := Exception { exn_class : string; exn_msg : string }.

Inductive result (A : Type) : Type :=
| Ret (a : A)
| Raise (e : exn).
Arguments Ret {A} a.
Arguments Raise {A} e.

(** Levels of the [logging] records the module emits. *)
Inductive level : Type := INFO | WARNING | ERROR.

(** Library calls made for their effect; each of them may raise. *)
Inductive call : Type :=
| GaugeNew (name documentation : string) (labelnames : list string)
| IsolationForestFit (reference : DataFrame)
| PushToGateway (gateway : option string) (job : string)
| FileOpen (path mode : string)
| FileWrite (path data : string)
| FileClose (path : string)
| OsMakedirs (path : string)
| PltFigure
| SnsKdeplot (data : list Py.value) (label : string)
| PltTitle (title : string)
| PltLegend
| PltSavefig (path : string)
| PltClose.

(** The dictionary built and returned by [detect_drift]. *)
Record DriftMetrics : Type := mkMetrics {
  timestamp : string;
  dm_model_name : string;
  dm_model_version : string;
  feature_drift : Dict.t Q;
  prediction_drift : Q;
  concept_drift : Q;
  anomaly_score : Q
}.

Definition set_feature_drift (k : string) (v : Q) (m : DriftMetrics)
    : DriftMetrics :=
  mkMetrics (timestamp m) (dm_model_name m) (dm_model_version m)
    (Dict.set k v (feature_drift m)) (prediction_drift m) (concept_drift m)
    (anomaly_score m).

Definition set_prediction_drift (v : Q) (m : DriftMetrics) : DriftMetrics :=
  mkMetrics (timestamp m) (dm_model_name m) (dm_model_version m)
    (feature_drift m) v (concept_drift m) (anomaly_score m).

Definition set_anomaly_score (v : Q) (m : DriftMetrics) : DriftMetrics :=
  mkMetrics (timestamp m) (dm_model_name m) (dm_model_version m)
    (feature_drift m) (prediction_drift m) (concept_drift m) v.

(** What lies outside the detector object.  [tick] counts the calls made to
    the environment so far, so that the same call may be answered differently
    at different times. *)
Record World : Type := mkWorld {
  tick : nat;
  log : list (level * string);
  files : Dict.t string;
  gauges : list (string * list string * Q)
}.

Record State : Type := mkState { self : DriftDetector; world : World }.

(** Answers of the libraries and of the operating system.  The first argument
    of the effectful entries is the time ([tick]) of the call. *)
Record Env : Type := mkEnv {
  now : nat -> string -> string;
  str_float : Q -> string;
  format_4f : Q -> string;
  json_dumps : DriftMetrics -> result string;
  read_csv : nat -> string -> result DataFrame;
  ks_2samp : nat -> list Py.value -> list Py.value -> result (Q * Q);
  score_samples : nat -> IsolationForest -> DataFrame -> result (list Q);
  lib : nat -> call -> result unit;
  os_is_bound : bool
}.

Definition M (A : Type) : Type := State -> result A * State.

Definition ret {A} (a : A) : M A := fun s => (Ret a, s).

Definition raise {A} (e : exn) : M A := fun s => (Raise e, s).

Definition bind {A B} (m : M A) (k : A -> M B) : M B :=
  fun s =>
    match m s with
    | (Ret a, s1) => k a s1
    | (Raise e, s1) => (Raise e, s1)
    end.

Declare Scope method_scope.
Delimit Scope method_scope with method.
Notation "x <- m ;; k" := (bind m (fun x => k))
  (at level 100, m at next level, right associativity) : method_scope.
Notation "m ;;; k" := (bind m (fun _ => k))
  (at level 100, right associativity) : method_scope.
Local Open Scope method_scope.

(** [try: m except Exception as e: h e] *)
Definition try_except {A} (m : M A) (h : exn -> M A) : M A :=
  fun s =>
    match m s with
    | (Ret a, s1) => (Ret a, s1)
    | (Raise e, s1) => h e s1
    end.

(** Runs [m] and hands its outcome over as a value. *)
Definition attempt {A} (m : M A) : M (result A) :=
  fun s => let (r, s1) := m s in (Ret r, s1).

Definition get_self : M DriftDetector := fun s => (Ret (self s), s).

Definition modify_self (f : DriftDetector -> DriftDetector) : M unit :=
  fun s => (Ret tt, mkState (f (self s)) (world s)).

Definition modify_world (f : World -> World) : M unit :=
  fun s => (Ret tt, mkState (self s) (f (world s))).

Definition bump (w : World) : World :=
  mkWorld (S (tick w)) (log w) (files w) (gauges w).

(** A call answered by the environment at the current time. *)
Definition ext {A} (f : nat -> result A) : M A :=
  fun s => (f (tick (world s)), mkState (self s) (bump (world s))).

(** [datetime.now()] rendered with the given format. *)
Definition datetime_now (env : Env) (fmt : string) : M string :=
  fun s => (Ret (now env (tick (world s)) fmt),
            mkState (self s) (bump (world s))).

Definition when (b : bool) (m : M unit) : M unit := if b then m else ret tt.

Fixpoint for_each {A B} (l : list A) (acc : B) (body : A -> B -> M B) : M B :=
  match l with
  | [] => ret acc
  | x :: r => acc' <- body x acc ;; for_each r acc' body
  end.

(** [logger.info / logger.warning / logger.error] *)
Definition logger (lv : level) (msg : string) : M unit :=
  modify_world (fun w =>
    mkWorld (tick w) (log w ++ [(lv, msg)]) (files w) (gauges w)).

(** [gauge.labels(...).set(v)]: stores the value in the in-process gauge. *)
Definition gauge_set (name : string) (labels : list string) (v : Q) : M unit :=
  modify_world (fun w =>
    mkWorld (tick w) (log w) (files w) ((name, labels, v) :: gauges w)).

Definition file_content (path : string) (w : World) : string :=
  match Dict.get path (files w) with Some c => c | None => EmptyString end.

Definition set_file (path content : string) (w : World) : World :=
  mkWorld (tick w) (log w) (Dict.set path content (files w)) (gauges w).

(** [open(path, mode)] for mode "w" (truncate) or "a" (keep). *)
Definition file_open (env : Env) (path mode : string) : M unit :=
  ext (fun t => lib env t (FileOpen path mode)) ;;;
  modify_world (fun w =>
    if String.eqb mode "w" then set_file path EmptyString w
    else set_file path (file_content path w) w).

(** [f.write(data)] *)
Definition file_write (env : Env) (path data : string) : M unit :=
  ext (fun t => lib env t (FileWrite path data)) ;;;
  modify_world (fun w => set_file path (file_content path w ++ data)%string w).

(** [with open(path, mode) as f: body]: the file is closed on every exit
    from the body; an exception of the body is re-raised after closing. *)
Definition with_open {A} (env : Env) (path mode : string) (body : M A) : M A :=
  file_open env path mode ;;;
  r <- attempt body ;;
  ext (fun t => lib env t (FileClose path)) ;;;
  match r with
  | Ret a => ret a
  | Raise e => raise e
  end.

Definition Qgtb (a b : Q) : bool := negb (Qle_bool a b).

Fixpoint Qsum (l : list Q) : Q :=
  match l with
  | [] => 0%Q
  | x :: r => (x + Qsum r)%Q
  end.

(** [np.mean] of a non-empty array of scores. *)
Definition np_mean (l : list Q) : Q := (Qsum l / inject_Z (Py.len l))%Q.

Definition nl : string := String (Ascii.ascii_of_nat 10) EmptyString.
Definition dq : string := String (Ascii.ascii_of_nat 34) EmptyString.

Local Open Scope string_scope.

(** Re-raises the exception of a pure library computation. *)
Definition lift {A} (r : result A) : M A :=
  match r with
  | Ret a => ret a
  | Raise e => raise e
  end.

(** ** Initialisation *)

(** [DriftDetector._init_prometheus_metrics]: each [Gauge(...)] registers
    itself with the process-wide registry. *)
Definition _init_prometheus_metrics (env : Env) : M unit :=
  ext (fun t => lib env t
    (GaugeNew "model_feature_drift" "Feature drift score"
       ["model_name"; "model_version"; "feature_name"])) ;;;
  ext (fun t => lib env t
    (GaugeNew "model_prediction_drift" "Prediction drift score"
       ["model_name"; "model_version"])) ;;;
  ext (fun t => lib env t
    (GaugeNew "model_concept_drift" "Concept drift score"
       ["model_name"; "model_version"])) ;;;
  ext (fun t => lib env t
    (GaugeNew "model_anomaly_score" "Anomaly score of recent data"
       ["model_name"; "model_version"])).

(** [DriftDetector._train_anomaly_detector] *)
Definition _train_anomaly_detector (env : Env) (reference : DataFrame)
    : M unit :=
  try_except
    (modify_self (set_forest (Some Unfitted)) ;;;
     ext (fun t => lib env t (IsolationForestFit reference)) ;;;
     modify_self (set_forest (Some (Fitted reference))) ;;;
     logger INFO "Trained anomaly detection model")
    (fun e =>
       logger ERROR
         ("Failed to train anomaly detection model: " ++ exn_msg e)).

(** [data[feature_columns]] *)
Definition select_columns (cols : list string) (data : DataFrame) : DataFrame :=
  filter (fun kv => existsb (String.eqb (fst kv)) cols) data.

(** [DriftDetector._load_reference_data] *)
Definition _load_reference_data (env : Env) (path : string) : M unit :=
  try_except
    (data <- ext (fun t => read_csv env t path) ;;
     let feature_columns :=
       filter (fun col => negb (String.eqb col "prediction"))
              (Dict.keys data) in
     for_each feature_columns tt (fun col _ =>
       match Dict.get col data with
       | Some values =>
           modify_self (fun d =>
             set_reference (Dict.set col values (reference_features d))
                           (reference_predictions d) d) ;;;
           modify_self (fun d =>
             set_current (Dict.set col [] (current_features d))
                         (current_predictions d) d)
       | None => raise (Exception "KeyError" col)
       end) ;;;
     match Dict.get "prediction" data with
     | Some values =>
         modify_self (fun d => set_reference (reference_features d) values d)
     | None => ret tt
     end ;;;
     _train_anomaly_detector env (select_columns feature_columns data) ;;;
     logger INFO ("Loaded reference data from " ++ path))
    (fun e => logger ERROR ("Failed to load reference data: " ++ exn_msg e)).

(** Truthiness of an [Optional[str]]: [None] and the empty string are false. *)
Definition truthy (p : option string) : option string :=
  match p with
  | Some EmptyString | None => None
  | Some s => Some s
  end.

(** [DriftDetector.__init__] *)
Definition __init__ (env : Env) (name version : string)
    (path : option string) (store : string) (url : option string)
    (threshold : Q) (wsize : Z) : M unit :=
  modify_self (fun _ =>
    mkDetector name version path store url threshold wsize [] [] [] [] None) ;;;
  when (String.eqb store "prometheus") (_init_prometheus_metrics env) ;;;
  match truthy path with
  | Some p => _load_reference_data env p
  | None => ret tt
  end ;;;
  logger INFO
    ("Initialized drift detector for model: " ++ name ++ " v" ++ version).

(** ** Scoring *)

(** [DriftDetector._calculate_distribution_drift] *)
Definition _calculate_distribution_drift (env : Env)
    (reference_values current_values : list Py.value) : M Q :=
  try_except
    (r <- ext (fun t => ks_2samp env t reference_values current_values) ;;
     let p_value := snd r in
     let drift_score := (1 - p_value)%Q in
     ret drift_score)
    (fun e =>
       logger ERROR
         ("Failed to calculate distribution drift: " ++ exn_msg e) ;;;
       ret 0%Q).

(** [DriftDetector._log_drift_metrics] *)
Definition _log_drift_metrics (env : Env) (drift_metrics : DriftMetrics)
    : M unit :=
  d <- get_self ;;
  let path := "logs/" ++ model_name d ++ "_drift.jsonl" in
  try_except
    (with_open env path "a"
       (line <- lift (json_dumps env drift_metrics) ;;
        file_write env path (line ++ nl)))
    (fun e => logger ERROR ("Failed to log drift metrics: " ++ exn_msg e)).

(** The feature loop of [detect_drift] (lines 195-214). *)
Definition detect_feature_drift (env : Env) (d : DriftDetector)
    (drift_metrics : DriftMetrics) : M DriftMetrics :=
  for_each (current_features d) drift_metrics (fun item dm =>
    let feature_name := fst item in
    let current_values := snd item in
    match Dict.get feature_name (reference_features d) with
    | Some reference_values =>
        if Py.len current_values >? 0 then
          drift_score <-
            _calculate_distribution_drift env reference_values current_values ;;
          let dm := set_feature_drift feature_name drift_score dm in
          when (String.eqb (metrics_store d) "prometheus")
            (gauge_set "model_feature_drift"
               [model_name d; model_version d; feature_name] drift_score) ;;;
          when (Qgtb drift_score (drift_threshold d))
            (logger WARNING
               ("Detected significant drift in feature " ++ feature_name
                ++ ": " ++ str_float env drift_score)) ;;;
          ret dm
        else ret dm
    | None => ret dm
    end).

(** The prediction block of [detect_drift] (lines 216-233). *)
Definition detect_prediction_drift (env : Env) (d : DriftDetector)
    (dm : DriftMetrics) : M DriftMetrics :=
  if (Py.len (reference_predictions d) >? 0)
     && (Py.len (current_predictions d) >? 0) then
    prediction_drift <-
      _calculate_distribution_drift env (reference_predictions d)
        (current_predictions d) ;;
    let dm := set_prediction_drift prediction_drift dm in
    when (String.eqb (metrics_store d) "prometheus")
      (gauge_set "model_prediction_drift"
         [model_name d; model_version d] prediction_drift) ;;;
    when (Qgtb prediction_drift (drift_threshold d))
      (logger WARNING
         ("Detected significant drift in predictions: "
          ++ str_float env prediction_drift)) ;;;
    ret dm
  else ret dm.

(** The data frame handed to the anomaly model (lines 239-243):
    [{name: values[-window_size:] for name, values in current_features.items()
      if len(values) >= window_size}]. *)
Definition anomaly_frame (d : DriftDetector) : DataFrame :=
  map (fun kv => (fst kv, Py.slice_from (- window_size d) (snd kv)))
      (filter (fun kv => Py.len (snd kv) >=? window_size d)
              (current_features d)).

(** The anomaly block of [detect_drift] (lines 235-262).  The handler
    returns the metrics as they were when the exception was raised: the only
    statement that can raise precedes the assignment to
    [drift_metrics["anomaly_score"]]. *)
Definition detect_anomalies (env : Env) (d : DriftDetector)
    (drift_metrics : DriftMetrics) : M DriftMetrics :=
  match isolation_forest d with
  | Some forest =>
      try_except
        (let feature_df := anomaly_frame d in
         anomaly_scores <-
           ext (fun t => score_samples env t forest feature_df) ;;
         let avg_anomaly_score := (np_mean anomaly_scores * (-1))%Q in
         let dm := set_anomaly_score avg_anomaly_score drift_metrics in
         when (String.eqb (metrics_store d) "prometheus")
           (gauge_set "model_anomaly_score"
              [model_name d; model_version d] avg_anomaly_score) ;;;
         when (Qgtb avg_anomaly_score 0.7)
           (logger WARNING
              ("Detected anomalies in recent data: "
               ++ str_float env avg_anomaly_score)) ;;;
         ret dm)
        (fun e =>
           logger ERROR
             ("Failed to calculate anomaly scores: " ++ exn_msg e) ;;;
           ret drift_metrics)
  | None => ret drift_metrics
  end.

(** The push block of [detect_drift] (lines 264-273). *)
Definition push_metrics (env : Env) (d : DriftDetector) : M unit :=
  when (String.eqb (metrics_store d) "prometheus")
    (try_except
       (ext (fun t => lib env t
          (PushToGateway (push_gateway_url d)
             (model_name d ++ "_" ++ model_version d ++ "_drift"))))
       (fun e =>
          logger ERROR
            ("Failed to push drift metrics to Prometheus: " ++ exn_msg e))).

(** [DriftDetector.detect_drift].  [self] is not assigned to before the
    final reset, so it is read once. *)
Definition detect_drift (env : Env) : M DriftMetrics :=
  ts <- datetime_now env "isoformat" ;;
  d <- get_self ;;
  let drift_metrics :=
    mkMetrics ts (model_name d) (model_version d) [] 0 0 0 in
  drift_metrics <- detect_feature_drift env d drift_metrics ;;
  drift_metrics <- detect_prediction_drift env d drift_metrics ;;
  drift_metrics <- detect_anomalies env d drift_metrics ;;
  push_metrics env d ;;;
  _log_drift_metrics env drift_metrics ;;;
  modify_self _reset_current_data ;;;
  ret drift_metrics.

(** [DriftDetector.add_observation] *)
Definition add_observation (env : Env) (features : Dict.t Py.value)
    (prediction : Py.value) (ground_truth : option Py.value) : M unit :=
  modify_self (record_observation features prediction) ;;;
  d <- get_self ;;
  if is_ready d then detect_drift env ;;; ret tt else ret tt.

(** ** Report *)

(** CSS class chosen for a score against a high and a medium threshold. *)
Definition drift_class (score high medium : Q) : string :=
  if Qgtb score high then "drift-high"
  else if Qgtb score medium then "drift-medium"
  else "drift-low".

Definition html_header (d : DriftDetector) (generated : string) : string :=
  "<!DOCTYPE html>" ++ nl ++ "<html>" ++ nl ++ "<head>" ++ nl
  ++ "    <title>Drift Report - " ++ model_name d ++ " v" ++ model_version d
  ++ "</title>" ++ nl
  ++ "    <style>" ++ nl
  ++ "        body { font-family: Arial, sans-serif; margin: 20px; }" ++ nl
  ++ "        h1, h2, h3 { color: #333; }" ++ nl
  ++ "        .chart { margin: 20px 0; }" ++ nl
  ++ "        .metric { margin: 10px 0; }" ++ nl
  ++ "        .drift-high { color: red; }" ++ nl
  ++ "        .drift-medium { color: orange; }" ++ nl
  ++ "        .drift-low { color: green; }" ++ nl
  ++ "    </style>" ++ nl ++ "</head>" ++ nl ++ "<body>" ++ nl
  ++ "    <h1>Model Drift Report</h1>" ++ nl
  ++ "    <p>Model: " ++ model_name d ++ " v" ++ model_version d ++ "</p>" ++ nl
  ++ "    <p>Generated: " ++ generated ++ "</p>" ++ nl
  ++ "    " ++ nl
  ++ "    <h2>Feature Drift Summary</h2>" ++ nl.

Definition html_feature (env : Env) (feature_name cls : string) (score : Q)
    : string :=
  "    <div class=" ++ dq ++ "metric" ++ dq ++ ">" ++ nl
  ++ "        <h3>" ++ feature_name ++ "</h3>" ++ nl
  ++ "        <p>Drift Score: <span class=" ++ dq ++ cls ++ dq ++ ">"
  ++ format_4f env score ++ "</span></p>" ++ nl
  ++ "        <div class=" ++ dq ++ "chart" ++ dq ++ ">" ++ nl
  ++ "            <!-- Placeholder for chart image -->" ++ nl
  ++ "            <img src=" ++ dq ++ "charts/" ++ feature_name
  ++ "_distribution.png" ++ dq ++ " alt=" ++ dq ++ feature_name
  ++ " Distribution" ++ dq ++ " />" ++ nl
  ++ "        </div>" ++ nl
  ++ "    </div>" ++ nl.

Definition html_prediction (env : Env) (cls : string) (score : Q) : string :=
  "    <h2>Prediction Drift Summary</h2>" ++ nl
  ++ "    <div class=" ++ dq ++ "metric" ++ dq ++ ">" ++ nl
  ++ "        <p>Drift Score: <span class=" ++ dq ++ cls ++ dq ++ ">"
  ++ format_4f env score ++ "</span></p>" ++ nl
  ++ "        <div class=" ++ dq ++ "chart" ++ dq ++ ">" ++ nl
  ++ "            <!-- Placeholder for chart image -->" ++ nl
  ++ "            <img src=" ++ dq ++ "charts/prediction_distribution.png" ++ dq
  ++ " alt=" ++ dq ++ "Prediction Distribution" ++ dq ++ " />" ++ nl
  ++ "        </div>" ++ nl
  ++ "    </div>" ++ nl.

Definition html_anomaly (env : Env) (cls : string) (score : Q) : string :=
  "    <h2>Anomaly Detection</h2>" ++ nl
  ++ "    <div class=" ++ dq ++ "metric" ++ dq ++ ">" ++ nl
  ++ "        <p>Anomaly Score: <span class=" ++ dq ++ cls ++ dq ++ ">"
  ++ format_4f env score ++ "</span></p>" ++ nl
  ++ "    </div>" ++ nl.

Definition html_footer : string := "</body>" ++ nl ++ "</html>" ++ nl.

(** One comparison chart (lines 435-441 and 444-450); the image bytes written
    by [plt.savefig] are not modelled, only the file they create. *)
Definition distribution_chart (env : Env) (reference current : list Py.value)
    (title path : string) : M unit :=
  ext (fun t => lib env t PltFigure) ;;;
  ext (fun t => lib env t (SnsKdeplot reference "Reference")) ;;;
  ext (fun t => lib env t (SnsKdeplot current "Current")) ;;;
  ext (fun t => lib env t (PltTitle title)) ;;;
  ext (fun t => lib env t PltLegend) ;;;
  ext (fun t => lib env t (PltSavefig path)) ;;;
  modify_world (set_file path EmptyString) ;;;
  ext (fun t => lib env t PltClose).

(** The name [os] is bound by the import under [if __name__ == "__main__"]
    only; elsewhere its use raises [NameError]. *)
Definition os_makedirs (env : Env) (path : string) : M unit :=
  if os_is_bound env then ext (fun t => lib env t (OsMakedirs path))
  else raise (Exception "NameError" "name 'os' is not defined").

Definition report_path_of (output_path : string) (d : DriftDetector)
    (timestamp : string) : string :=
  output_path ++ "/" ++ model_name d ++ "_drift_report_" ++ timestamp
  ++ ".html".

(** The body of the [with open(report_path, "w") as f] block. *)
Definition write_report (env : Env) (report_path : string) : M unit :=
  d <- get_self ;;
  generated <- datetime_now env "%Y-%m-%d %H:%M:%S" ;;
  file_write env report_path (html_header d generated) ;;;
  metrics <- detect_drift env ;;
  for_each (feature_drift metrics) tt (fun item _ =>
    let feature_name := fst item in
    let drift_score := snd item in
    let cls :=
      drift_class drift_score (drift_threshold d) (drift_threshold d / 2)%Q in
    file_write env report_path
      (html_feature env feature_name cls drift_score)) ;;;
  metrics <- detect_drift env ;;
  let pred_drift := prediction_drift metrics in
  let cls :=
    drift_class pred_drift (drift_threshold d) (drift_threshold d / 2)%Q in
  file_write env report_path (html_prediction env cls pred_drift) ;;;
  metrics <- detect_drift env ;;
  let score := anomaly_score metrics in
  let cls := drift_class score 0.7 0.5 in
  file_write env report_path (html_anomaly env cls score) ;;;
  file_write env report_path html_footer.

(** The chart section of [generate_drift_report] (lines 429-450). *)
Definition write_charts (env : Env) (output_path : string) : M unit :=
  os_makedirs env (output_path ++ "/charts") ;;;
  d <- get_self ;;
  for_each (Dict.keys (current_features d)) tt (fun feature_name _ =>
    match Dict.get feature_name (reference_features d),
          Dict.get feature_name (current_features d) with
    | Some reference, Some current =>
        distribution_chart env reference current
          (feature_name ++ " Distribution Comparison")
          (output_path ++ "/charts/" ++ feature_name ++ "_distribution.png")
    | Some _, None => raise (Exception "KeyError" feature_name)
    | None, _ => ret tt
    end) ;;;
  distribution_chart env (reference_predictions d) (current_predictions d)
    "Prediction Distribution Comparison"
    (output_path ++ "/charts/prediction_distribution.png").

(** [DriftDetector.generate_drift_report] *)
Definition generate_drift_report (env : Env) (output_path : string)
    : M string :=
  timestamp <- datetime_now env "%Y%m%d_%H%M%S" ;;
  d <- get_self ;;
  let report_path := report_path_of output_path d timestamp in
  try_except
    (with_open env report_path "w" (write_report env report_path) ;;;
     write_charts env output_path ;;;
     logger INFO ("Generated drift report at: " ++ report_path) ;;;
     ret report_path)
    (fun e =>
       logger ERROR ("Failed to generate drift report: " ++ exn_msg e) ;;;
       ret EmptyString).

Local Close Scope string_scope.

Local Open Scope Z_scope.
Local Open Scope method_scope.

(** ** Specification vocabulary *)

(** The last [n] elements of a sequence. *)
Definition last_n {A} (n : Z) (s : list A) : list A :=
  skipn (List.length s - Z.to_nat n) s.

(** A method that never raises. *)
Definition total {A} (m : M A) : Prop := forall s, exists a, fst (m s) = Ret a.

(** [m] returns normally from [s], with a value and a final state in [P]. *)
Definition runs_to {A} (m : M A) (s : State) (P : A -> State -> Prop) : Prop :=
  exists a s', m s = (Ret a, s') /\ P a s'.

(** Every value [m] returns is in [R]. *)
Definition yields {A} (m : M A) (R : A -> Prop) : Prop :=
  forall s a s', m s = (Ret a, s') -> R a.

(** A relation between the state before and after a method that holds
    across any step that changes the world only by adding files. *)
Record Frame : Type := mkFrame {
  related : State -> State -> Prop;
  related_refl : forall s, related s s;
  related_trans : forall s1 s2 s3,
    related s1 s2 -> related s2 s3 -> related s1 s3;
  related_world : forall s w',
    (forall p, Dict.mem p (files (world s)) = true ->
               Dict.mem p (files w') = true) ->
    related s (mkState (self s) w')
}.

(** [m] keeps the frame, also when it raises. *)
Definition preserves (F : Frame) {A} (m : M A) : Prop :=
  forall s, related F s (snd (m s)).

(** The detector object is left as it was. *)
Definition self_frame : Frame :=
  mkFrame (fun s s' => self s' = self s)
    (fun s => eq_refl)
    (fun s1 s2 s3 H12 H23 => eq_trans H23 H12)
    (fun s w' _ => eq_refl).

(** No file disappears. *)
Definition files_frame : Frame :=
  mkFrame
    (fun s s' => forall p, Dict.mem p (files (world s)) = true ->
                           Dict.mem p (files (world s')) = true)
    (fun s p H => H)
    (fun s1 s2 s3 H12 H23 p H => H23 p (H12 p H))
    (fun s w' H => H).

(** The numeric values an observation carries for one feature name, in the
    order of the observation. *)
Definition numeric_values_for (name : string) (features : Dict.t Py.value)
    : list Py.value :=
  map snd
    (filter (fun kv => String.eqb (fst kv) name
                       && Py.isinstance_int_float (snd kv)) features).

Definition sequence_of (name : string) (cf : Dict.t (list Py.value))
    : list Py.value :=
  match Dict.get name cf with Some s => s | None => [] end.

(** scikit-learn refuses to score an empty frame, and to score with a model
    that was not fitted. *)
Definition rejects_empty_frame (env : Env) : Prop :=
  forall t forest, exists e, score_samples env t forest [] = Raise e.

Definition rejects_unfitted (env : Env) : Prop :=
  forall t frame, exists e, score_samples env t Unfitted frame = Raise e.

(** The three situations in which no anomaly score can be computed. *)
Definition anomaly_scoring_unavailable (env : Env) (d : DriftDetector) : Prop :=
  isolation_forest d = None \/
  (isolation_forest d = Some Unfitted /\ rejects_unfitted env) \/
  (rejects_empty_frame env /\
   forall name vals, In (name, vals) (current_features d) ->
                     Py.len vals < window_size d).

(** ** Concrete environments and detectors used in the examples *)

Module Examples.
Local Open Scope string_scope.

(** Every library call fails; the module is imported, not run as a script. *)
Definition failing_env : Env :=
  mkEnv (fun _ _ => "20240101_000000")
    (fun _ => "0.0") (fun _ => "0.0000")
    (fun _ => Raise (Exception "TypeError" "not JSON serializable"))
    (fun _ path =>
       Raise (Exception "FileNotFoundError" ("No such file: " ++ path)))
    (fun _ _ _ => Raise (Exception "ValueError" "ks_2samp failed"))
    (fun _ _ _ => Raise (Exception "ValueError" "score_samples failed"))
    (fun _ _ => Raise (Exception "OSError" "library call failed"))
    false.

(** Every library call succeeds; the module is run as a script. *)
Definition working_env : Env :=
  mkEnv (fun _ _ => "20240101_000000")
    (fun _ => "0.5") (fun _ => "0.5000")
    (fun _ => Ret "{}")
    (fun _ _ =>
       Ret [("x", [Py.PyFloat 0.1; Py.PyFloat 0.2]);
            ("prediction", [Py.PyFloat 0.5; Py.PyFloat 0.6])])
    (fun _ _ _ => Ret (0.2, 0.5)%Q)
    (fun _ forest frame =>
       match forest, frame with
       | Fitted _, _ :: _ => Ret [(-0.4)%Q; (-0.6)%Q]
       | _, _ => Raise (Exception "ValueError" "cannot score")
       end)
    (fun _ _ => Ret tt)
    true.

Definition fresh_world : World := mkWorld 0 [] [] [].

(** The object before [__init__] has run. *)
Definition blank : DriftDetector :=
  mkDetector EmptyString EmptyString None EmptyString None 0 0 [] [] [] []
    None.

(** A detector without reference data, with the given window size and
    buffers. *)
Definition detector (wsize : Z) (cf : Dict.t (list Py.value))
    (cp : list Py.value) : DriftDetector :=
  mkDetector "example_model" "1.0.0" None "local" None 0.05 wsize
    [] [] cf cp None.

Definition ints (l : list Z) : list Py.value := map Py.PyInt l.

(** Every library call succeeds, but the module is imported: the name [os]
    is unbound. *)
Definition imported_env : Env :=
  mkEnv (now working_env) (str_float working_env) (format_4f working_env)
    (json_dumps working_env) (read_csv working_env) (ks_2samp working_env)
    (score_samples working_env) (lib working_env) false.

(** A detector with reference data and buffered observations for feature
    [x], and the given metrics store. *)
Definition monitored (store : string) : DriftDetector :=
  mkDetector "example_model" "1.0.0" None store None 0.05 20
    [("x", ints [0; 1])] (ints [0; 1])
    [("x", ints [1; 2; 3])] (ints [1; 2; 3]) None.
End Examples.

(** ** Vocabulary for the properties beyond the buffer *)

(** [n] resets in a row. *)
Definition resets (n : nat) (d : DriftDetector) : DriftDetector :=
  Nat.iter n _reset_current_data d.

(** Everything of the detector but its two observation buffers. *)
Definition settings (d : DriftDetector) :=
  (model_name d, model_version d, reference_data_path d, metrics_store d,
   push_gateway_url d, drift_threshold d, window_size d,
   reference_features d, reference_predictions d, isolation_forest d).

(** The settings of the detector are left as they were. *)
Definition settings_frame : Frame :=
  mkFrame (fun s s' => settings (self s') = settings (self s))
    (fun s => eq_refl)
    (fun s1 s2 s3 H12 H23 => eq_trans H23 H12)
    (fun s w' _ => eq_refl).

(** [m] leaves the observed part [obs] of the world as it was, also when it
    raises. *)
Definition keeps_world {X A} (obs : World -> X) (m : M A) : Prop :=
  forall s, obs (world (snd (m s))) = obs (world s).

(** Whenever [m] returns, the states before and after are in [R]. *)
Definition ensures {A} (m : M A) (R : State -> State -> Prop) : Prop :=
  forall s a s', m s = (Ret a, s') -> R s s'.

(** The detector after is the detector before, reset [n] times. *)
Definition reset_times (n : nat) (s s' : State) : Prop :=
  self s' = resets n (self s).

(** The two-sample test reports p-values in [0, 1]. *)
Definition p_values_in_range (env : Env) : Prop :=
  forall t reference current ks_stat p_value,
    ks_2samp env t reference current = Ret (ks_stat, p_value) ->
    (0 <= p_value <= 1)%Q.

(** A feature is scored by a drift check when it has reference values and
    at least one current value. *)
Definition scored (d : DriftDetector) (name : string) : Prop :=
  exists vals, In (name, vals) (current_features d) /\
               Dict.mem name (reference_features d) = true /\
               vals <> [].

(** The file [_log_drift_metrics] appends to. *)
Definition drift_log_path (d : DriftDetector) : string :=
  ("logs/" ++ model_name d ++ "_drift.jsonl")%string.

(** The columns of a reference frame that are loaded as features. *)
Definition is_feature_column (data : DataFrame) (col : string) : bool :=
  Dict.mem col data && negb (String.eqb col "prediction").

Definition feature_columns_of (data : DataFrame) : list string :=
  filter (fun col => negb (String.eqb col "prediction")) (Dict.keys data).

(** The detector object as [__init__] first assigns it. *)
Definition initial_detector (name version : string) (path : option string)
    (store : string) (url : option string) (threshold : Q) (wsize : Z)
    : DriftDetector :=
  mkDetector name version path store url threshold wsize [] [] [] [] None.

(** What [_log_drift_metrics], called at time [t], appends to its file:
    the line of the metrics when the file opens, the metrics serialise and
    the write succeeds, nothing otherwise. *)
Definition log_suffix (env : Env) (dm : DriftMetrics) (path : string)
    (t : nat) : string :=
  match lib env t (FileOpen path "a") with
  | Ret _ =>
      match json_dumps env dm with
      | Ret line =>
          match lib env (S t) (FileWrite path (line ++ nl)) with
          | Ret _ => (line ++ nl)%string
          | Raise _ => EmptyString
          end
      | Raise _ => EmptyString
      end
  | Raise _ => EmptyString
  end.

(** ** The content of the report *)

Definition join (l : list string) : string :=
  fold_right String.append EmptyString l.

(** The section written for one entry of [feature_drift] (lines 375-390). *)
Definition feature_section (env : Env) (d : DriftDetector)
    (item : string * Q) : string :=
  html_feature env (fst item)
    (drift_class (snd item) (drift_threshold d) (drift_threshold d / 2)%Q)
    (snd item).

(** The whole report, from the metrics of the three drift checks. *)
Definition html_report (env : Env) (d : DriftDetector) (generated : string)
    (dm1 dm2 dm3 : DriftMetrics) : string :=
  (html_header d generated
   ++ join (map (feature_section env d) (feature_drift dm1))
   ++ html_prediction env
        (drift_class (prediction_drift dm2) (drift_threshold d)
           (drift_threshold d / 2)%Q)
        (prediction_drift dm2)
   ++ html_anomaly env (drift_class (anomaly_score dm3) 0.7 0.5)
        (anomaly_score dm3)
   ++ html_footer)%string.

(** [dm] is returned by a drift check run on detector [d]. *)
Definition checked (env : Env) (d : DriftDetector) (dm : DriftMetrics)
    : Prop :=
  exists s s', self s = d /\ detect_drift env s = (Ret dm, s').

(** The file at [path] holds the report of detector [d]: the feature
    section comes from a check on [d], the prediction section from a check
    on [d] reset once, the anomaly section from a check on [d] reset
    twice. *)
Definition report_written (env : Env) (d : DriftDetector) (path : string)
    (w : World) : Prop :=
  exists generated dm1 dm2 dm3,
    checked env d dm1 /\
    checked env (resets 1 d) dm2 /\
    checked env (resets 2 d) dm3 /\
    file_content path w = html_report env d generated dm1 dm2 dm3.

(** From [s] to [s']: [n] resets, and [text] appended to the file [p]. *)
Definition wrote (p text : string) (n : nat) (s s' : State) : Prop :=
  self s' = resets n (self s) /\
  file_content p (world s') = (file_content p (world s) ++ text)%string.

(** The path of the chart of a feature (line 440). *)
Definition feature_chart_path (output_path name : string) : string :=
  (output_path ++ "/charts/" ++ name ++ "_distribution.png")%string.

(** The charts of detector [d] exist under [output_path]: one for the
    predictions, and one for every current feature that has reference
    values. *)
Definition charts_written (output_path : string) (d : DriftDetector)
    (w : World) : Prop :=
  Dict.mem (output_path ++ "/charts/prediction_distribution.png")%string
    (files w) = true /\
  forall name,
    In name (Dict.keys (current_features d)) ->
    Dict.mem name (reference_features d) = true ->
    Dict.mem (feature_chart_path output_path name) (files w) = true.

(** * Properties *)

(** ** Sequences and dictionaries *)

Section Sequences.
Context {A : Type}.
Implicit Types (s : list A) (b : Z).

Lemma len_nonneg s : 0 <= Py.len s.
Proof. unfold Py.len. lia. Qed.

Lemma len_app s t : Py.len (s ++ t) = Py.len s + Py.len t.
Proof. unfold Py.len. rewrite length_app. lia. Qed.

Lemma len_skipn n s :
  Py.len (skipn n s) = Py.len s - Z.of_nat (Nat.min n (List.length s)).
Proof. unfold Py.len. rewrite length_skipn. lia. Qed.

Lemma slice_from_neg b s :
  0 < b <= Py.len s -> Py.slice_from (- b) s = last_n b s.
Proof.
  intros Hb. unfold Py.slice_from, last_n.
  destruct (- b <? 0) eqn:E; [| apply Z.ltb_ge in E; lia].
  f_equal. unfold Py.len in *. lia.
Qed.

Lemma slice_from_zero s : Py.slice_from (- 0) s = s.
Proof.
  unfold Py.slice_from. simpl.
  replace (Z.min 0 (Py.len s)) with 0 by (unfold Py.len; lia).
  reflexivity.
Qed.

Lemma len_last_n b s : 0 <= b <= Py.len s -> Py.len (last_n b s) = b.
Proof.
  intros Hb. unfold last_n. rewrite len_skipn. unfold Py.len in *. lia.
Qed.

Lemma last_n_suffix b s : exists front, s = front ++ last_n b s.
Proof.
  exists (firstn (List.length s - Z.to_nat b) s).
  unfold last_n. symmetry. apply firstn_skipn.
Qed.

Lemma trim_long b s : b < Py.len s -> trim b s = Py.slice_from (- b) s.
Proof.
  intros Hb. unfold trim.
  destruct (Py.len s >? b) eqn:E; [reflexivity |].
  rewrite Z.gtb_ltb in E. apply Z.ltb_ge in E. lia.
Qed.

Lemma trim_short b s : Py.len s <= b -> trim b s = [].
Proof.
  intros Hb. unfold trim.
  destruct (Py.len s >? b) eqn:E; [| reflexivity].
  rewrite Z.gtb_ltb in E. apply Z.ltb_lt in E. lia.
Qed.

Lemma trim_last_n b s : 1 <= b < Py.len s -> trim b s = last_n b s.
Proof.
  intros Hb. rewrite trim_long by lia. apply slice_from_neg. lia.
Qed.

Lemma trim_zero_keeps s : s <> [] -> trim 0 s = s.
Proof.
  intros Hs. rewrite trim_long; [apply slice_from_zero |].
  destruct s; [congruence |]. unfold Py.len. simpl. lia.
Qed.

Lemma len_trim_le b s : 1 <= b -> Py.len (trim b s) <= b.
Proof.
  intros Hb. destruct (Z_lt_le_dec b (Py.len s)) as [Hl | Hl].
  - rewrite trim_last_n by lia. rewrite len_last_n; lia.
  - rewrite trim_short by lia. unfold Py.len. simpl. lia.
Qed.
End Sequences.

Module DictFacts.
Lemma get_map_values {V W} (f : V -> W) k (d : Dict.t V) :
  Dict.get k (Dict.map_values f d) = option_map f (Dict.get k d).
Proof.
  induction d as [| [k' v] d IH]; simpl; [reflexivity |].
  destruct (String.eqb k k'); [reflexivity | exact IH].
Qed.

Lemma keys_map_values {V W} (f : V -> W) (d : Dict.t V) :
  Dict.keys (Dict.map_values f d) = Dict.keys d.
Proof.
  unfold Dict.keys, Dict.map_values. rewrite map_map. reflexivity.
Qed.

Lemma in_map_values {V W} (f : V -> W) k w (d : Dict.t V) :
  In (k, w) (Dict.map_values f d) <-> exists v, In (k, v) d /\ w = f v.
Proof.
  unfold Dict.map_values. rewrite in_map_iff. split.
  - intros [[k' v] [E Hin]]. simpl in E. inversion E; subst. eauto.
  - intros [v [Hin ->]]. exists (k, v). auto.
Qed.

Lemma get_set_same {V} k (v : V) d : Dict.get k (Dict.set k v d) = Some v.
Proof.
  induction d as [| [k' v'] d IH]; simpl.
  - rewrite String.eqb_refl. reflexivity.
  - destruct (String.eqb k k') eqn:E; simpl.
    + rewrite String.eqb_refl. reflexivity.
    + rewrite E. exact IH.
Qed.

Lemma get_set_other {V} k k' (v : V) d :
  k <> k' -> Dict.get k (Dict.set k' v d) = Dict.get k d.
Proof.
  intros Hne. induction d as [| [k2 v2] d IH]; simpl.
  - apply String.eqb_neq in Hne. rewrite Hne. reflexivity.
  - destruct (String.eqb k' k2) eqn:E; simpl.
    + apply String.eqb_eq in E. subst k2.
      apply String.eqb_neq in Hne. rewrite Hne. reflexivity.
    + destruct (String.eqb k k2); [reflexivity | exact IH].
Qed.

Lemma mem_set {V} k k' (v : V) d :
  Dict.mem k d = true -> Dict.mem k (Dict.set k' v d) = true.
Proof.
  unfold Dict.mem. destruct (string_dec k k') as [-> | Hne].
  - rewrite get_set_same. reflexivity.
  - rewrite get_set_other by assumption. tauto.
Qed.
End DictFacts.

(** ** Reasoning rules for methods *)

Create HintDb method.

Lemma total_ret {A} (a : A) : total (ret a).
Proof. intros s. exists a. reflexivity. Qed.

Lemma total_bind {A B} (m : M A) (k : A -> M B) :
  total m -> (forall a, total (k a)) -> total (bind m k).
Proof.
  intros Hm Hk s. unfold bind. destruct (Hm s) as [a Ha].
  destruct (m s) as [r s1]. simpl in Ha. subst r. apply Hk.
Qed.

Lemma total_try_except {A} (m : M A) (h : exn -> M A) :
  (forall e, total (h e)) -> total (try_except m h).
Proof.
  intros Hh s. unfold try_except. destruct (m s) as [[a | e] s1].
  - exists a. reflexivity.
  - apply Hh.
Qed.

Lemma total_for_each {A B} (l : list A) (acc : B) (body : A -> B -> M B) :
  (forall x b, total (body x b)) -> total (for_each l acc body).
Proof.
  intros Hbody. revert acc.
  induction l as [| x l IH]; intros acc; simpl.
  - apply total_ret.
  - apply total_bind; [apply Hbody | intros b; apply IH].
Qed.

Lemma total_get_self : total get_self.
Proof. intros s. eexists. reflexivity. Qed.

Lemma total_modify_self f : total (modify_self f).
Proof. intros s. eexists. reflexivity. Qed.

Lemma total_modify_world f : total (modify_world f).
Proof. intros s. eexists. reflexivity. Qed.

Lemma total_logger lv msg : total (logger lv msg).
Proof. apply total_modify_world. Qed.

Lemma total_gauge_set name labels v : total (gauge_set name labels v).
Proof. apply total_modify_world. Qed.

Lemma total_datetime_now env fmt : total (datetime_now env fmt).
Proof. intros s. eexists. reflexivity. Qed.

Lemma total_when b m : total m -> total (when b m).
Proof. intros Hm. destruct b; simpl; [exact Hm | apply total_ret]. Qed.

#[export] Hint Resolve total_ret total_bind total_try_except total_for_each
  total_get_self total_modify_self total_modify_world total_logger
  total_gauge_set total_datetime_now total_when : method.

Section Preservation.
Variable F : Frame.

Lemma preserves_ret {A} (a : A) : preserves F (ret a).
Proof. intros s. apply related_refl. Qed.

Lemma preserves_raise {A} (e : exn) : preserves F (@raise A e).
Proof. intros s. apply related_refl. Qed.

Lemma preserves_lift {A} (r : result A) : preserves F (lift r).
Proof. destruct r; [apply preserves_ret | apply preserves_raise]. Qed.

Lemma preserves_get_self : preserves F get_self.
Proof. intros s. apply related_refl. Qed.

Lemma preserves_bind {A B} (m : M A) (k : A -> M B) :
  preserves F m -> (forall a, preserves F (k a)) -> preserves F (bind m k).
Proof.
  intros Hm Hk s. unfold bind. specialize (Hm s).
  destruct (m s) as [[a | e] s1]; simpl in *; [| exact Hm].
  eapply related_trans; [exact Hm | apply Hk].
Qed.

Lemma preserves_try_except {A} (m : M A) (h : exn -> M A) :
  preserves F m -> (forall e, preserves F (h e)) ->
  preserves F (try_except m h).
Proof.
  intros Hm Hh s. unfold try_except. specialize (Hm s).
  destruct (m s) as [[a | e] s1]; simpl in *; [exact Hm |].
  eapply related_trans; [exact Hm | apply Hh].
Qed.

Lemma preserves_attempt {A} (m : M A) :
  preserves F m -> preserves F (attempt m).
Proof.
  intros Hm s. unfold attempt. specialize (Hm s).
  destruct (m s) as [r s1]. exact Hm.
Qed.

Lemma preserves_for_each {A B} (l : list A) (acc : B) (body : A -> B -> M B) :
  (forall x b, preserves F (body x b)) -> preserves F (for_each l acc body).
Proof.
  intros Hbody. revert acc.
  induction l as [| x l IH]; intros acc; simpl.
  - apply preserves_ret.
  - apply preserves_bind; [apply Hbody | intros b; apply IH].
Qed.

Lemma preserves_when b m : preserves F m -> preserves F (when b m).
Proof. intros Hm. destruct b; simpl; [exact Hm | apply preserves_ret]. Qed.

Lemma preserves_ext {A} (f : nat -> result A) : preserves F (ext f).
Proof. intros s. apply related_world. auto. Qed.

Lemma preserves_datetime_now env fmt : preserves F (datetime_now env fmt).
Proof. intros s. apply related_world. auto. Qed.

Lemma preserves_logger lv msg : preserves F (logger lv msg).
Proof. intros s. apply related_world. auto. Qed.

Lemma preserves_gauge_set name labels v :
  preserves F (gauge_set name labels v).
Proof. intros s. apply related_world. auto. Qed.

Lemma preserves_set_file path (content : World -> string) :
  preserves F (modify_world (fun w => set_file path (content w) w)).
Proof.
  intros s. apply related_world. intros p Hp. simpl.
  apply DictFacts.mem_set. exact Hp.
Qed.
End Preservation.

#[export] Hint Resolve preserves_ret preserves_raise preserves_lift
  preserves_get_self preserves_bind preserves_try_except preserves_attempt
  preserves_for_each preserves_when preserves_ext preserves_datetime_now
  preserves_logger preserves_gauge_set preserves_set_file : method.

Lemma preserves_file_open F env path mode :
  preserves F (file_open env path mode).
Proof.
  unfold file_open. apply preserves_bind; [auto with method | intros _].
  intros s. apply related_world. intros p Hp. simpl.
  destruct (String.eqb mode "w"); apply DictFacts.mem_set; exact Hp.
Qed.

Lemma preserves_file_write F env path data :
  preserves F (file_write env path data).
Proof.
  unfold file_write. apply preserves_bind; [auto with method | intros _].
  apply (preserves_set_file F path
           (fun w => (file_content path w ++ data)%string)).
Qed.

#[export] Hint Resolve preserves_file_open preserves_file_write : method.

Lemma preserves_with_open {A} F env path mode (body : M A) :
  preserves F body -> preserves F (with_open env path mode body).
Proof.
  intros Hb. unfold with_open.
  apply preserves_bind; [auto with method | intros _].
  apply preserves_bind; [auto with method | intros r].
  apply preserves_bind; [auto with method | intros _].
  destruct r; auto with method.
Qed.

#[export] Hint Resolve preserves_with_open : method.

Lemma preserves_files_modify_self f : preserves files_frame (modify_self f).
Proof. intros s p Hp. exact Hp. Qed.

#[export] Hint Resolve preserves_files_modify_self : method.

(** *** Stepping through a method that returns *)

Lemma runs_ret {A} (a : A) s (P : A -> State -> Prop) :
  P a s -> runs_to (ret a) s P.
Proof. intros H. exists a, s. auto. Qed.

Lemma runs_bind {A B} (m : M A) (k : A -> M B) s (P : B -> State -> Prop)
    (R : A -> Prop) :
  total m -> preserves self_frame m -> yields m R ->
  (forall a s1, R a -> self s1 = self s -> runs_to (k a) s1 P) ->
  runs_to (bind m k) s P.
Proof.
  intros Ht Hk Hy Hcont. destruct (Ht s) as [a Ha]. specialize (Hk s).
  specialize (Hy s). unfold runs_to, bind.
  destruct (m s) as [r s1]. simpl in *. subst r.
  apply Hcont; [eapply Hy; reflexivity | exact Hk].
Qed.

Lemma runs_get_self {B} (k : DriftDetector -> M B) s P :
  runs_to (k (self s)) s P -> runs_to (bind get_self k) s P.
Proof. intros H. exact H. Qed.

Lemma runs_modify_self {B} f (k : unit -> M B) s P :
  runs_to (k tt) (mkState (f (self s)) (world s)) P ->
  runs_to (bind (modify_self f) k) s P.
Proof. intros H. exact H. Qed.

(** *** Values returned *)

Lemma yields_any {A} (m : M A) : yields m (fun _ => True).
Proof. intros s a s' _. exact I. Qed.

Lemma yields_ret {A} (a : A) (R : A -> Prop) : R a -> yields (ret a) R.
Proof. intros H s a' s' E. inversion E. subst. exact H. Qed.

Lemma yields_bind {A B} (m : M A) (k : A -> M B) (R : B -> Prop) :
  (forall a, yields (k a) R) -> yields (bind m k) R.
Proof.
  intros Hk s b s'. unfold bind.
  destruct (m s) as [[a | e] s1]; [apply Hk | discriminate].
Qed.

Lemma yields_for_each {A B} (l : list A) (acc : B) (body : A -> B -> M B)
    (R : B -> Prop) :
  R acc -> (forall x b, R b -> yields (body x b) R) ->
  yields (for_each l acc body) R.
Proof.
  intros Hacc Hbody. revert acc Hacc.
  induction l as [| x l IH]; intros acc Hacc; simpl.
  - apply yields_ret. exact Hacc.
  - intros s b s'. unfold bind.
    destruct (body x acc s) as [[b1 | e] s1] eqn:E; [| discriminate].
    apply IH. eapply Hbody; eassumption.
Qed.

Lemma yields_try_except {A} (m : M A) (h : exn -> M A) (R : A -> Prop) :
  yields m R -> (forall e, yields (h e) R) -> yields (try_except m h) R.
Proof.
  intros Hm Hh s a s'. unfold try_except.
  destruct (m s) as [[a1 | e] s1] eqn:E.
  - intros H. inversion H; subst. eapply Hm. exact E.
  - apply Hh.
Qed.


(** ** The methods of the detector *)

Section Methods.
Variable env : Env.

Lemma total_calculate_distribution_drift r c :
  total (_calculate_distribution_drift env r c).
Proof. unfold _calculate_distribution_drift. auto with method. Qed.

Lemma preserves_calculate_distribution_drift F r c :
  preserves F (_calculate_distribution_drift env r c).
Proof. unfold _calculate_distribution_drift. auto 6 with method. Qed.

#[local] Hint Resolve total_calculate_distribution_drift
  preserves_calculate_distribution_drift : method.

Lemma total_detect_feature_drift d dm :
  total (detect_feature_drift env d dm).
Proof.
  unfold detect_feature_drift. apply total_for_each. intros [name vals] b.
  simpl. destruct (Dict.get name (reference_features d)); auto with method.
  destruct (Py.len vals >? 0); auto 7 with method.
Qed.

Lemma preserves_detect_feature_drift F d dm :
  preserves F (detect_feature_drift env d dm).
Proof.
  unfold detect_feature_drift. apply preserves_for_each.
  intros [name vals] b. simpl.
  destruct (Dict.get name (reference_features d)); auto with method.
  destruct (Py.len vals >? 0); auto 7 with method.
Qed.

Lemma total_detect_prediction_drift d dm :
  total (detect_prediction_drift env d dm).
Proof.
  unfold detect_prediction_drift. destruct (_ && _); auto 7 with method.
Qed.

Lemma preserves_detect_prediction_drift F d dm :
  preserves F (detect_prediction_drift env d dm).
Proof.
  unfold detect_prediction_drift. destruct (_ && _); auto 7 with method.
Qed.

Lemma total_detect_anomalies d dm : total (detect_anomalies env d dm).
Proof.
  unfold detect_anomalies. destruct (isolation_forest d); auto with method.
Qed.

Lemma preserves_detect_anomalies F d dm :
  preserves F (detect_anomalies env d dm).
Proof.
  unfold detect_anomalies. destruct (isolation_forest d); auto 8 with method.
Qed.

Lemma total_push_metrics d : total (push_metrics env d).
Proof. unfold push_metrics. auto with method. Qed.

Lemma preserves_push_metrics F d : preserves F (push_metrics env d).
Proof. unfold push_metrics. auto with method. Qed.

Lemma total_log_drift_metrics dm : total (_log_drift_metrics env dm).
Proof. unfold _log_drift_metrics. auto with method. Qed.

Lemma preserves_log_drift_metrics F dm :
  preserves F (_log_drift_metrics env dm).
Proof. unfold _log_drift_metrics. auto 8 with method. Qed.

#[local] Hint Resolve total_detect_feature_drift preserves_detect_feature_drift
  total_detect_prediction_drift preserves_detect_prediction_drift
  total_detect_anomalies preserves_detect_anomalies
  total_push_metrics preserves_push_metrics
  total_log_drift_metrics preserves_log_drift_metrics : method.

Lemma total_detect_drift : total (detect_drift env).
Proof. unfold detect_drift. auto 12 with method. Qed.

Lemma preserves_files_detect_drift : preserves files_frame (detect_drift env).
Proof. unfold detect_drift. auto 12 with method. Qed.

Lemma total_add_observation features prediction ground_truth :
  total (add_observation env features prediction ground_truth).
Proof.
  unfold add_observation.
  apply total_bind; [auto with method | intros _].
  apply total_bind; [auto with method | intros d].
  pose proof total_detect_drift.
  destruct (is_ready d); auto with method.
Qed.

Lemma total_generate_drift_report output_path :
  total (generate_drift_report env output_path).
Proof. unfold generate_drift_report. auto 8 with method. Qed.

Lemma total_load_reference_data path :
  total (_load_reference_data env path).
Proof. unfold _load_reference_data. auto with method. Qed.

(** A drift check returns its metrics and leaves the buffers trimmed,
    whatever the libraries answer. *)
Lemma detect_drift_resets s :
  runs_to (detect_drift env) s
    (fun _ s' => self s' = _reset_current_data (self s)).
Proof.
  unfold detect_drift.
  eapply runs_bind;
    [auto with method | auto with method | apply yields_any
    | intros ts s1 _ H1].
  apply runs_get_self. rewrite H1.
  do 5 (eapply runs_bind;
    [auto with method | auto with method | apply yields_any | intros ? ? _ ?]).
  apply runs_modify_self. apply runs_ret. simpl. congruence.
Qed.

Lemma add_observation_runs features prediction ground_truth s :
  let d1 := record_observation features prediction (self s) in
  runs_to (add_observation env features prediction ground_truth) s
    (fun _ s' =>
       self s' = if is_ready d1 then _reset_current_data d1 else d1).
Proof.
  intros d1. unfold add_observation.
  apply runs_modify_self. apply runs_get_self. simpl. fold d1.
  destruct (is_ready d1).
  - destruct (detect_drift_resets (mkState d1 (world s)))
      as (dm & s' & E & Hs').
    unfold runs_to, bind. rewrite E.
    exists tt, s'. split; [reflexivity | exact Hs'].
  - apply runs_ret. reflexivity.
Qed.
End Methods.

(** ** The buffer *)

Lemma buffer_size_positive d : 10 <= window_size d -> 1 <= buffer_size d.
Proof.
  intros H. unfold buffer_size, Py.min, Py.floordiv.
  assert (1 <= window_size d / 10) by (apply Z.div_le_lower_bound; lia).
  lia.
Qed.

Lemma buffer_size_below_window d :
  1 <= window_size d -> buffer_size d < window_size d.
Proof.
  intros H. unfold buffer_size, Py.min, Py.floordiv.
  assert (window_size d / 10 < window_size d) by (apply Z.div_lt; lia).
  lia.
Qed.

Lemma buffer_size_small_window d :
  0 <= window_size d <= 9 -> buffer_size d = 0.
Proof.
  intros H. unfold buffer_size, Py.min, Py.floordiv.
  rewrite Z.div_small by lia. lia.
Qed.

(** For windows of ten observations or more the reset leaves at most
    [buffer_size] elements in every sequence. *)
Lemma reset_bounds_buffers d :
  10 <= window_size d ->
  let d' := _reset_current_data d in
  Py.len (current_predictions d') <= buffer_size d /\
  forall name s, In (name, s) (current_features d') ->
                 Py.len s <= buffer_size d.
Proof.
  intros Hw d'. pose proof (buffer_size_positive d Hw) as Hb. split.
  - simpl. apply len_trim_le. exact Hb.
  - intros name s Hin. simpl in Hin.
    apply DictFacts.in_map_values in Hin. destruct Hin as [v [_ ->]].
    apply len_trim_le. exact Hb.
Qed.

(** C4, as amended.  The reset keeps the feature names; a sequence longer
    than [buffer_size] is cut to its last [buffer_size] elements (when that
    bound is at least one), and a sequence of length at most [buffer_size],
    a sequence of exactly that length included, is cleared. *)
Theorem reset_truncates_or_clears (d : DriftDetector) :
  let b := buffer_size d in
  let d' := _reset_current_data d in
  Dict.keys (current_features d') = Dict.keys (current_features d) /\
  (forall name,
     Dict.get name (current_features d') =
     option_map (trim b) (Dict.get name (current_features d))) /\
  current_predictions d' = trim b (current_predictions d) /\
  forall s : list Py.value,
    (Py.len s <= b -> trim b s = []) /\
    (1 <= b < Py.len s ->
     trim b s = last_n b s /\ Py.len (trim b s) = b /\
     exists front, s = front ++ trim b s).
Proof.
  intros b d'. split; [| split; [| split]].
  - apply DictFacts.keys_map_values.
  - intros name. apply DictFacts.get_map_values.
  - reflexivity.
  - intros s. split.
    + apply trim_short.
    + intros Hb. rewrite trim_last_n by exact Hb.
      split; [reflexivity |].
      split; [apply len_last_n; lia | apply last_n_suffix].
Qed.

Lemma reset_truncates_or_clears_witness :
  let d := Examples.detector 20 [] (Examples.ints [1; 2; 3]) in
  trim (buffer_size d) (Examples.ints [1; 2]) = [] /\
  trim (buffer_size d) (Examples.ints [1; 2; 3]) = Examples.ints [2; 3] /\
  current_predictions (_reset_current_data d) = Examples.ints [2; 3].
Proof.
  intros d.
  destruct (reset_truncates_or_clears d) as (_ & _ & Hp & Hs).
  split; [| split].
  - apply (proj1 (Hs (Examples.ints [1; 2]))). vm_compute. discriminate.
  - assert (Hlong : 1 <= buffer_size d < Py.len (Examples.ints [1; 2; 3]))
      by (vm_compute; split; [discriminate | reflexivity]).
    rewrite (proj1 (proj2 (Hs (Examples.ints [1; 2; 3])) Hlong)).
    reflexivity.
  - rewrite Hp. reflexivity.
Defined.

(** C4, counterexample.  With a window of 20 the bound is 2; a prediction
    sequence of exactly two elements is cleared by the reset, not kept. *)
Lemma reset_clears_sequence_of_exact_length :
  let d := Examples.detector 20 [("x"%string, Examples.ints [7; 8])]
             (Examples.ints [1; 2]) in
  Py.len (current_predictions d) = buffer_size d /\
  current_predictions (_reset_current_data d) = [] /\
  current_predictions (_reset_current_data d) <> current_predictions d /\
  current_features (_reset_current_data d) = [("x"%string, [])].
Proof.
  simpl. repeat split. discriminate.
Qed.

(** C5, at the failing input.  With a window of 5 the bound is 0.  In the
    state in which [add_observation] triggers the check (five predictions,
    five values of feature x) the reset leaves every sequence as it is:
    [s[-0:]] is the whole sequence, so the lengths exceed the bound. *)
Theorem reset_keeps_everything_for_small_window :
  let d := Examples.detector 5 [("x"%string, Examples.ints [1; 2; 3; 4; 5])]
             (Examples.ints [1; 2; 3; 4; 5]) in
  buffer_size d = 0 /\
  _reset_current_data d = d /\
  Py.len (current_predictions (_reset_current_data d)) = 5 /\
  ~ Py.len (current_predictions (_reset_current_data d)) <= buffer_size d /\
  ~ (forall name s, In (name, s) (current_features (_reset_current_data d)) ->
                    Py.len s <= buffer_size d).
Proof.
  simpl. split; [reflexivity |]. split; [reflexivity |].
  split; [reflexivity |]. split.
  - vm_compute. intros H. apply H. reflexivity.
  - intros H. specialize (H "x"%string (Examples.ints [1; 2; 3; 4; 5])).
    vm_compute in H. apply H; [left |]; reflexivity.
Qed.

(** The defect behind C5 in general: for a window below ten the reset is the
    identity on every non-empty sequence. *)
Lemma reset_identity_for_small_window d :
  0 <= window_size d <= 9 ->
  current_predictions d <> [] ->
  current_predictions (_reset_current_data d) = current_predictions d.
Proof.
  intros Hw Hne. simpl. rewrite (buffer_size_small_window d Hw).
  apply trim_zero_keeps. exact Hne.
Qed.

(** ** Readiness *)

Lemma is_ready_iff d :
  is_ready d = true <-> window_size d <= Py.len (current_predictions d).
Proof. unfold is_ready. rewrite Z.geb_le. reflexivity. Qed.

Lemma is_ready_false_iff d :
  is_ready d = false <-> Py.len (current_predictions d) < window_size d.
Proof.
  unfold is_ready. rewrite Z.geb_leb, Z.leb_gt. reflexivity.
Qed.

(** C6.  The test that triggers a drift check holds exactly when the
    prediction sequence has at least [window_size] elements: after an
    append it holds exactly when the sequence has reached that length, it
    decides whether [add_observation] runs the check, and it fails again
    after a trim that leaves fewer than [window_size] predictions, which
    every trim does when the window is of ten observations or more. *)
Theorem readiness_condition (env : Env) (d : DriftDetector) :
  (is_ready d = true <-> window_size d <= Py.len (current_predictions d)) /\
  (forall features prediction,
     is_ready (record_observation features prediction d) = true <->
     window_size d <= Py.len (current_predictions d) + 1) /\
  (forall features prediction ground_truth w,
     let d1 := record_observation features prediction d in
     add_observation env features prediction ground_truth (mkState d w) =
     if is_ready d1
     then (detect_drift env ;;; ret tt) (mkState d1 w)
     else (Ret tt, mkState d1 w)) /\
  (Py.len (current_predictions (_reset_current_data d)) < window_size d ->
   is_ready (_reset_current_data d) = false) /\
  (10 <= window_size d -> is_ready (_reset_current_data d) = false).
Proof.
  split; [apply is_ready_iff |]. split; [| split; [| split]].
  - intros features prediction. rewrite is_ready_iff. simpl.
    rewrite len_app. unfold Py.len at 2. simpl. reflexivity.
  - intros features prediction ground_truth w d1.
    unfold add_observation, bind, modify_self, get_self. simpl. fold d1.
    destruct (is_ready d1); reflexivity.
  - intros Hlt. apply is_ready_false_iff. exact Hlt.
  - intros Hw. apply is_ready_false_iff.
    pose proof (proj1 (reset_bounds_buffers d Hw)) as Hb.
    pose proof (buffer_size_below_window d).
    change (window_size (_reset_current_data d)) with (window_size d). lia.
Qed.

Lemma readiness_condition_witness :
  let d := Examples.detector 20 [] (map Py.PyInt (map Z.of_nat (seq 0 20))) in
  is_ready d = true /\ is_ready (_reset_current_data d) = false.
Proof.
  intros d.
  destruct (readiness_condition Examples.working_env d)
    as (Hr & _ & _ & Ht & _).
  split.
  - apply Hr. vm_compute. discriminate.
  - apply Ht. vm_compute. reflexivity.
Defined.

(** ** Observations *)

Lemma get_append_features name features cf :
  Dict.get name (append_features features cf) =
  match numeric_values_for name features with
  | [] => Dict.get name cf
  | added => Some (sequence_of name cf ++ added)
  end.
Proof.
  revert cf. induction features as [| [k v] rest IH]; intros cf.
  - reflexivity.
  - simpl append_features. rewrite IH. clear IH.
    unfold numeric_values_for. simpl filter.
    destruct (Py.isinstance_int_float v) eqn:Hnum.
    + destruct (String.eqb k name) eqn:Hk; simpl.
      * apply String.eqb_eq in Hk. subst k.
        set (added := map snd _).
        assert (Hget : forall s,
                  Dict.get name (Dict.set name s cf) = Some s)
          by (intros; apply DictFacts.get_set_same).
        unfold sequence_of.
        destruct (Dict.get name cf) as [old |] eqn:Hold;
          rewrite Hget; destruct added; simpl;
          rewrite <- ?app_assoc; reflexivity.
      * apply String.eqb_neq in Hk.
        assert (Hget : forall s,
                  Dict.get name (Dict.set k s cf) = Dict.get name cf)
          by (intros; apply DictFacts.get_set_other; congruence).
        unfold sequence_of.
        destruct (Dict.get k cf); rewrite Hget; reflexivity.
    + rewrite andb_false_r. reflexivity.
Qed.

Lemma numeric_values_for_cons name k v rest :
  numeric_values_for name ((k, v) :: rest) =
  if String.eqb k name && Py.isinstance_int_float v
  then v :: numeric_values_for name rest
  else numeric_values_for name rest.
Proof.
  unfold numeric_values_for. simpl.
  destruct (String.eqb k name && Py.isinstance_int_float v); reflexivity.
Qed.

Lemma numeric_values_for_absent name features :
  ~ In name (Dict.keys features) -> numeric_values_for name features = [].
Proof.
  intros Hout. induction features as [| [k v] rest IH]; [reflexivity |].
  rewrite numeric_values_for_cons. simpl in Hout.
  destruct (String.eqb k name) eqn:Hk.
  - apply String.eqb_eq in Hk. tauto.
  - simpl. apply IH. tauto.
Qed.

Lemma numeric_values_for_present name v features :
  NoDup (Dict.keys features) -> In (name, v) features ->
  numeric_values_for name features =
  if Py.isinstance_int_float v then [v] else [].
Proof.
  intros Hnd Hin. induction features as [| [k u] rest IH]; [contradiction |].
  simpl in Hnd. inversion Hnd as [| ? ? Hk Hrest]; subst.
  rewrite numeric_values_for_cons.
  destruct Hin as [E | Hin].
  - inversion E; subst. rewrite String.eqb_refl. simpl.
    rewrite (numeric_values_for_absent name rest Hk).
    destruct (Py.isinstance_int_float v); reflexivity.
  - assert (Hne : String.eqb k name = false).
    { apply String.eqb_neq. intros ->. apply Hk.
      apply (in_map fst) in Hin. exact Hin. }
    rewrite Hne. simpl. apply IH; assumption.
Qed.

(** C7.  For an observation (a dictionary, so with distinct feature names):
    the prediction is appended whatever it is; a feature value that is an
    [int] or a [float] is appended to the sequence of its name (created if
    absent); any other feature value leaves the sequence of its name as it
    was; names outside the observation are not touched; and
    [add_observation] returns without raising, with the buffers so extended
    (and trimmed if the drift check ran). *)
Theorem add_observation_appends (env : Env)
    (features : Dict.t Py.value) (prediction : Py.value)
    (ground_truth : option Py.value) (s : State) :
  NoDup (Dict.keys features) ->
  let d' := record_observation features prediction (self s) in
  current_predictions d' = current_predictions (self s) ++ [prediction] /\
  (forall name v, In (name, v) features ->
     Dict.get name (current_features d') =
     if Py.isinstance_int_float v
     then Some (sequence_of name (current_features (self s)) ++ [v])
     else Dict.get name (current_features (self s))) /\
  (forall name, ~ In name (Dict.keys features) ->
     Dict.get name (current_features d') =
     Dict.get name (current_features (self s))) /\
  exists s',
    add_observation env features prediction ground_truth s = (Ret tt, s') /\
    self s' = if is_ready d' then _reset_current_data d' else d'.
Proof.
  intros Hnd d'. split; [reflexivity |]. split; [| split].
  - intros name v Hin. simpl. rewrite get_append_features.
    rewrite (numeric_values_for_present name v features Hnd Hin).
    destruct (Py.isinstance_int_float v); reflexivity.
  - intros name Hout. simpl. rewrite get_append_features.
    rewrite (numeric_values_for_absent name features Hout). reflexivity.
  - destruct (add_observation_runs env features prediction ground_truth s)
      as ([] & s' & E & Hs').
    exists s'. split; [exact E | exact Hs'].
Qed.

Lemma add_observation_appends_witness :
  let s := mkState
    (Examples.detector 100 [("x"%string, [Py.PyFloat 0.5])] [])
    Examples.fresh_world in
  let features :=
    [("x"%string, Py.PyInt 3); ("label"%string, Py.PyStr "a");
     ("y"%string, Py.PyBool true)] in
  let d' := record_observation features (Py.PyStr "cat") (self s) in
  current_predictions d' = [Py.PyStr "cat"] /\
  Dict.get "x"%string (current_features d') =
    Some [Py.PyFloat 0.5; Py.PyInt 3] /\
  Dict.get "label"%string (current_features d') = None.
Proof.
  intros s features d'.
  assert (Hnd : NoDup (Dict.keys features)).
  { simpl. repeat constructor; simpl; intuition discriminate. }
  destruct (add_observation_appends Examples.working_env features
              (Py.PyStr "cat") None s Hnd) as (Hp & Hf & _ & _).
  split; [exact Hp |]. split.
  - apply (Hf "x"%string (Py.PyInt 3)). simpl. auto.
  - apply (Hf "label"%string (Py.PyStr "a")). simpl. auto.
Defined.

(** ** Drift checks and the buffer *)

(** For windows of ten observations or more, every call of
    [add_observation] returns with fewer than [window_size] predictions
    buffered. *)
Lemma add_observation_below_window env features prediction ground_truth s :
  10 <= window_size (self s) ->
  runs_to (add_observation env features prediction ground_truth) s
    (fun _ s' =>
       Py.len (current_predictions (self s')) < window_size (self s)).
Proof.
  intros Hw.
  destruct (add_observation_runs env features prediction ground_truth s)
    as (a & s' & E & Hs').
  exists a, s'. split; [exact E |]. rewrite Hs'. clear E Hs'.
  set (d1 := record_observation features prediction (self s)).
  assert (Hw1 : window_size d1 = window_size (self s)) by reflexivity.
  destruct (is_ready d1) eqn:Hr.
  - assert (H10 : 10 <= window_size d1) by lia.
    pose proof (proj1 (reset_bounds_buffers d1 H10)) as Hb.
    pose proof (buffer_size_below_window d1). lia.
  - apply is_ready_false_iff in Hr. lia.
Qed.

(** The defect behind C10 in general: for a window of one to nine
    observations, a call that fills the window returns with the window
    still full. *)
Lemma add_observation_small_window env features prediction ground_truth s :
  1 <= window_size (self s) <= 9 ->
  window_size (self s) <= Py.len (current_predictions (self s)) + 1 ->
  runs_to (add_observation env features prediction ground_truth) s
    (fun _ s' =>
       current_predictions (self s') =
       current_predictions (self s) ++ [prediction]).
Proof.
  intros Hw Hfull.
  destruct (add_observation_runs env features prediction ground_truth s)
    as (a & s' & E & Hs').
  exists a, s'. split; [exact E |]. rewrite Hs'. clear E Hs'.
  set (d1 := record_observation features prediction (self s)).
  destruct (is_ready d1) eqn:Hr; [| reflexivity].
  apply reset_identity_for_small_window.
  - change (window_size d1) with (window_size (self s)). lia.
  - simpl. destruct (current_predictions (self s)); discriminate.
Qed.

(** C10, at the failing input.  Window of 5 (so the bound is 0, below the
    window), four predictions buffered.  The fifth observation triggers the
    drift check, whose log write fails and is reported; the call returns
    with all five predictions still buffered. *)
Theorem add_observation_leaves_small_window_full :
  let d := Examples.detector 5 [] (Examples.ints [1; 2; 3; 4]) in
  let run := add_observation Examples.failing_env [] (Py.PyInt 5) None
               (mkState d Examples.fresh_world) in
  buffer_size d < window_size d /\
  fst run = Ret tt /\
  log (world (snd run)) =
    [(ERROR, "Failed to log drift metrics: library call failed"%string)] /\
  current_predictions (self (snd run)) = Examples.ints [1; 2; 3; 4; 5] /\
  ~ Py.len (current_predictions (self (snd run))) < window_size d.
Proof.
  vm_compute. repeat split; intros H; discriminate H.
Qed.

(** ** Exceptions *)

Lemma total_runs {A} (m : M A) s : total m -> exists a s', m s = (Ret a, s').
Proof.
  intros Ht. destruct (Ht s) as [a Ha]. destruct (m s) as [r s'].
  simpl in Ha. subst r. eauto.
Qed.

(** C1.  Whatever the libraries answer (any of their calls may raise at any
    time) and whatever the state of the detector, [add_observation],
    [detect_drift] and [generate_drift_report] return normally. *)
Theorem no_exception_escapes (env : Env) (s : State) :
  (forall features prediction ground_truth, exists s',
     add_observation env features prediction ground_truth s = (Ret tt, s')) /\
  (exists metrics s', detect_drift env s = (Ret metrics, s')) /\
  (forall output_path, exists path s',
     generate_drift_report env output_path s = (Ret path, s')).
Proof.
  split; [| split].
  - intros features prediction ground_truth.
    destruct (total_runs _ s
      (total_add_observation env features prediction ground_truth))
      as ([] & s' & E).
    eauto.
  - apply total_runs. apply total_detect_drift.
  - intros output_path. apply total_runs. apply total_generate_drift_report.
Qed.

(** ** Scores *)

(** In a drift check a feature without current values is skipped: the test
    is not run for it and nothing is logged. *)
Lemma feature_drift_skips_empty env d dm s :
  (forall name vals, In (name, vals) (current_features d) -> vals = []) ->
  detect_feature_drift env d dm s = (Ret dm, s).
Proof.
  unfold detect_feature_drift.
  induction (current_features d) as [| [name vals] rest IH]; intros Hempty.
  - reflexivity.
  - simpl for_each. unfold bind.
    rewrite (Hempty name vals (or_introl eq_refl)). simpl.
    destruct (Dict.get name (reference_features d));
      (apply IH; intros n v Hin; apply (Hempty n v); right; exact Hin).
Qed.

(** C3, as amended.  When the test returns a p-value the score is one minus
    that p-value, nothing is logged, and the score lies in [0, 1] when the
    p-value does.  When the test raises, the score is 0 and one record of
    level ERROR is logged; the method returns in both cases.  The method
    does not treat an empty current sample apart (the statement holds for
    every [current]); in a drift check an empty sample never reaches the
    test: without current predictions the prediction drift is left as it
    is, and a feature without current values is skipped, in both cases
    with the state, hence the log, unchanged. *)
Theorem distribution_drift_score (env : Env)
    (reference current : list Py.value) (s : State) :
  let w := world s in
  match ks_2samp env (tick w) reference current with
  | Ret (ks_stat, p_value) =>
      _calculate_distribution_drift env reference current s =
        (Ret (1 - p_value)%Q, mkState (self s) (bump w)) /\
      ((0 <= p_value <= 1)%Q -> (0 <= 1 - p_value <= 1)%Q)
  | Raise e =>
      _calculate_distribution_drift env reference current s =
        (Ret 0%Q,
         mkState (self s)
           (mkWorld (S (tick w))
              (log w ++ [(ERROR,
                 ("Failed to calculate distribution drift: "
                  ++ exn_msg e)%string)])
              (files w) (gauges w)))
  end /\
  (forall d dm,
     current_predictions d = [] ->
     detect_prediction_drift env d dm s = (Ret dm, s)) /\
  (forall d dm,
     (forall name vals, In (name, vals) (current_features d) -> vals = []) ->
     detect_feature_drift env d dm s = (Ret dm, s)).
Proof.
  intros w. split; [| split].
  - unfold _calculate_distribution_drift, try_except, bind, ext. fold w.
    destruct (ks_2samp env (tick w) reference current) as [[k p] | e].
    + simpl. split; [reflexivity | intros [H0 H1]; split; lra].
    + reflexivity.
  - intros d dm Hempty. unfold detect_prediction_drift. rewrite Hempty.
    rewrite andb_false_r. reflexivity.
  - intros d dm. apply feature_drift_skips_empty.
Qed.

Lemma distribution_drift_score_witness :
  let s := mkState (Examples.detector 100 [] []) Examples.fresh_world in
  let d := mkDetector "example_model" "1.0.0" None "local" None 0.05 20
             [("x"%string, Examples.ints [0; 1])] (Examples.ints [0; 1])
             [("x"%string, [])] [] None in
  let dm := mkMetrics "t" "example_model" "1.0.0" [] 0 0 0 in
  fst (_calculate_distribution_drift Examples.working_env
         (Examples.ints [1; 2]) (Examples.ints [3; 4]) s) = Ret (1 - 0.5)%Q /\
  (0 <= 1 - 0.5 <= 1)%Q /\
  detect_prediction_drift Examples.working_env d dm s = (Ret dm, s) /\
  detect_feature_drift Examples.working_env d dm s = (Ret dm, s).
Proof.
  intros s d dm.
  destruct (distribution_drift_score Examples.working_env
              (Examples.ints [1; 2]) (Examples.ints [3; 4]) s)
    as (H & Hp & Hf).
  cbv zeta in H.
  change (ks_2samp Examples.working_env (tick (world s))
            (Examples.ints [1; 2]) (Examples.ints [3; 4]))
    with (@Ret (Q * Q) (0.2, 0.5)%Q) in H.
  destruct H as [E Hrange].
  split; [rewrite E; reflexivity |].
  split; [apply Hrange; split; discriminate |].
  split; [apply Hp; reflexivity |].
  apply Hf. intros name vals [E1 | []]. inversion E1. reflexivity.
Defined.

(** C3, counterexample.  First, a test that raises on two non-empty
    samples: the score is 0 and the only record logged has level ERROR, no
    warning is logged.  Second, a drift check of a detector with reference
    data and empty current samples, every library call succeeding: no
    feature is scored, the prediction drift is 0, and nothing at all is
    logged. *)
Lemma failed_test_logs_error_not_warning :
  let s := mkState (Examples.detector 100 [] []) Examples.fresh_world in
  let failed := _calculate_distribution_drift Examples.failing_env
                  (Examples.ints [1; 2]) (Examples.ints [3; 4]) s in
  let d := mkDetector "example_model" "1.0.0" None "local" None 0.05 20
             [("x"%string, Examples.ints [0; 1])] (Examples.ints [0; 1])
             [("x"%string, [])] [] None in
  let check := detect_drift Examples.working_env
                 (mkState d Examples.fresh_world) in
  (fst failed = Ret 0%Q /\
   log (world (snd failed)) =
     [(ERROR,
       "Failed to calculate distribution drift: ks_2samp failed"%string)] /\
   ~ In WARNING (map fst (log (world (snd failed))))) /\
  (exists metrics,
     fst check = Ret metrics /\
     feature_drift metrics = [] /\ prediction_drift metrics = 0%Q) /\
  log (world (snd check)) = [].
Proof.
  split; [| split].
  - simpl. repeat split. intros [H | []]. discriminate H.
  - eexists. split; [vm_compute; reflexivity |]. split; reflexivity.
  - vm_compute. reflexivity.
Qed.

(** ** Loading the reference data *)

(** Registering the gauges depends on the world only. *)
Lemma init_prometheus_metrics_world env b w :
  exists r w', forall d,
    when b (_init_prometheus_metrics env) (mkState d w) = (r, mkState d w').
Proof.
  destruct b; simpl; [| exists (Ret tt), w; reflexivity].
  unfold _init_prometheus_metrics, bind, ext. simpl.
  repeat match goal with
  | |- context [match lib ?e ?t ?c with _ => _ end] =>
      destruct (lib e t c) as [[] | ?]
  end; do 2 eexists; intros d; reflexivity.
Qed.

Lemma init_steps env name version path store url threshold wsize s :
  __init__ env name version path store url threshold wsize s =
  match
    when (String.eqb store "prometheus") (_init_prometheus_metrics env)
      (mkState
         (mkDetector name version path store url threshold wsize
            [] [] [] [] None)
         (world s))
  with
  | (Ret _, s1) =>
      match
        match truthy path with
        | Some p => _load_reference_data env p
        | None => ret tt
        end s1
      with
      | (Ret _, s2) =>
          logger INFO
            ("Initialized drift detector for model: " ++ name ++ " v"
             ++ version)%string s2
      | (Raise e, s2) => (Raise e, s2)
      end
  | (Raise e, s1) => (Raise e, s1)
  end.
Proof. reflexivity. Qed.

(** C2, as amended.  When the reference file cannot be read,
    [_load_reference_data] logs one ERROR record, changes nothing in the
    detector and returns.  Initialisation is not affected: [__init__]
    returns or raises exactly as it does without a reference path, and the
    detector it leaves has no reference data and no anomaly model. *)
Theorem load_failure_is_logged (env : Env) (name version path store : string)
    (url : option string) (threshold : Q) (wsize : Z) (s : State) :
  path <> EmptyString ->
  (forall t, exists e, read_csv env t path = Raise e) ->
  (exists e,
     _load_reference_data env path s =
     (Ret tt,
      mkState (self s)
        (mkWorld (S (tick (world s)))
           (log (world s) ++ [(ERROR,
              ("Failed to load reference data: " ++ exn_msg e)%string)])
           (files (world s)) (gauges (world s))))) /\
  fst (__init__ env name version (Some path) store url threshold wsize s) =
  fst (__init__ env name version None store url threshold wsize s) /\
  (forall s',
     __init__ env name version (Some path) store url threshold wsize s =
     (Ret tt, s') ->
     self s' =
       mkDetector name version (Some path) store url threshold wsize
         [] [] [] [] None /\
     exists records e,
       log (world s') =
       records ++
       [(ERROR, ("Failed to load reference data: " ++ exn_msg e)%string);
        (INFO, ("Initialized drift detector for model: " ++ name ++ " v"
                ++ version)%string)]).
Proof.
  intros Hpath Hmissing.
  assert (Hload : forall d w, exists e,
    _load_reference_data env path (mkState d w) =
    (Ret tt,
     mkState d
       (mkWorld (S (tick w))
          (log w ++ [(ERROR,
             ("Failed to load reference data: " ++ exn_msg e)%string)])
          (files w) (gauges w)))).
  { intros d w. destruct (Hmissing (tick w)) as [e He]. exists e.
    unfold _load_reference_data, try_except, bind, ext. simpl.
    rewrite He. reflexivity. }
  split; [destruct s as [d w]; apply Hload |].
  destruct (init_prometheus_metrics_world env
              (String.eqb store "prometheus") (world s))
    as (r & w1 & Hinit).
  rewrite !init_steps, !Hinit.
  assert (Htruthy : truthy (Some path) = Some path)
    by (destruct path; [congruence | reflexivity]).
  rewrite Htruthy. simpl truthy. cbv iota.
  destruct r as [[] | e0].
  - destruct (Hload
      (mkDetector name version (Some path) store url threshold wsize
         [] [] [] [] None) w1) as [e He].
    rewrite He. split; [reflexivity |].
    intros s' E. inversion E; subst s'. simpl. split; [reflexivity |].
    exists (log w1), e. rewrite <- app_assoc. reflexivity.
  - split; [reflexivity | intros s' E; discriminate E].
Qed.

Lemma load_failure_is_logged_witness :
  exists s',
    __init__ Examples.failing_env "example_model" "1.0.0"
      (Some "data/reference_data.csv"%string) "local" None 0.05 1000
      (mkState Examples.blank Examples.fresh_world) = (Ret tt, s') /\
    reference_features (self s') = [] /\
    isolation_forest (self s') = None.
Proof.
  eexists. split; [vm_compute; reflexivity |].
  assert (Hpath : "data/reference_data.csv"%string <> EmptyString)
    by discriminate.
  assert (Hmissing : forall t, exists e,
            read_csv Examples.failing_env t "data/reference_data.csv"
            = Raise e)
    by (intros t; eexists; reflexivity).
  destruct (load_failure_is_logged Examples.failing_env "example_model"
              "1.0.0" "data/reference_data.csv" "local" None 0.05 1000
              (mkState Examples.blank Examples.fresh_world) Hpath Hmissing)
    as (_ & _ & Hinit).
  destruct (Hinit _ ltac:(vm_compute; reflexivity)) as [Hself _].
  rewrite Hself. split; reflexivity.
Defined.

(** C2, counterexample.  The reference file is missing; the constructor
    does not raise (no [DataLoadError], nor any other exception): it logs
    the failure and completes. *)
Lemma missing_reference_file_is_not_fatal :
  let run := __init__ Examples.failing_env "example_model" "1.0.0"
               (Some "data/reference_data.csv"%string) "local" None 0.05 1000
               (mkState Examples.blank Examples.fresh_world) in
  fst run = Ret tt /\
  (forall e, fst run <> Raise e) /\
  log (world (snd run)) =
    [(ERROR,
      ("Failed to load reference data: "
       ++ "No such file: data/reference_data.csv")%string);
     (INFO,
      "Initialized drift detector for model: example_model v1.0.0"%string)].
Proof.
  vm_compute. repeat split. intros e H. discriminate H.
Qed.

(** ** Anomaly scoring *)

Lemma feature_drift_keeps_anomaly_score env d dm :
  yields (detect_feature_drift env d dm)
    (fun dm' => anomaly_score dm' = anomaly_score dm).
Proof.
  unfold detect_feature_drift. apply yields_for_each; [reflexivity |].
  intros [name vals] b Hb. simpl.
  destruct (Dict.get name (reference_features d));
    [| apply yields_ret; exact Hb].
  destruct (Py.len vals >? 0); [| apply yields_ret; exact Hb].
  repeat (apply yields_bind; intros ?). apply yields_ret. exact Hb.
Qed.

Lemma prediction_drift_keeps_anomaly_score env d dm :
  yields (detect_prediction_drift env d dm)
    (fun dm' => anomaly_score dm' = anomaly_score dm).
Proof.
  unfold detect_prediction_drift.
  destruct (_ && _); [| apply yields_ret; reflexivity].
  repeat (apply yields_bind; intros ?). apply yields_ret. reflexivity.
Qed.

Lemma anomaly_frame_empty d :
  (forall name vals, In (name, vals) (current_features d) ->
                     Py.len vals < window_size d) ->
  anomaly_frame d = [].
Proof.
  intros Hshort. unfold anomaly_frame.
  induction (current_features d) as [| [name vals] rest IH]; [reflexivity |].
  simpl. assert (Hlt : Py.len vals < window_size d)
    by (apply (Hshort name); left; reflexivity).
  rewrite Z.geb_leb. apply Z.leb_gt in Hlt. rewrite Hlt.
  apply IH. intros n v Hin. apply (Hshort n). right. exact Hin.
Qed.

Lemma in_anomaly_frame d name col :
  In (name, col) (anomaly_frame d) <->
  exists vals, In (name, vals) (current_features d) /\
               window_size d <= Py.len vals /\
               col = Py.slice_from (- window_size d) vals.
Proof.
  unfold anomaly_frame. rewrite in_map_iff. split.
  - intros [[k vals] [E Hin]]. simpl in E. inversion E; subst.
    apply filter_In in Hin. destruct Hin as [Hin Hlen]. simpl in Hlen.
    apply Z.geb_le in Hlen. eauto.
  - intros (vals & Hin & Hlen & ->). exists (name, vals).
    split; [reflexivity |].
    apply filter_In. split; [exact Hin |]. simpl. apply Z.geb_le. exact Hlen.
Qed.

Lemma anomalies_skipped env d dm :
  anomaly_scoring_unavailable env d ->
  yields (detect_anomalies env d dm) (fun dm' => dm' = dm).
Proof.
  intros Hun. unfold detect_anomalies.
  unfold anomaly_scoring_unavailable in Hun.
  destruct (isolation_forest d) as [forest |] eqn:Hforest;
    [| apply yields_ret; reflexivity].
  assert (Hraise : forall t, exists e,
            score_samples env t forest (anomaly_frame d) = Raise e).
  { destruct Hun as [Hnone | [[Hunf Hrej] | [Hrej Hshort]]].
    - discriminate Hnone.
    - inversion Hunf; subst. intros t. apply Hrej.
    - rewrite (anomaly_frame_empty d Hshort). intros t. apply Hrej. }
  intros s a s'. unfold try_except, bind, ext.
  destruct (Hraise (tick (world s))) as [e He]. rewrite He.
  unfold logger, modify_world, ret. simpl. intros H. inversion H. reflexivity.
Qed.

(** The anomaly block hands [anomaly_frame] to the model and stores minus
    the mean of the scores it gets back. *)
Lemma anomalies_scored env d dm forest scores :
  isolation_forest d = Some forest ->
  (forall t, score_samples env t forest (anomaly_frame d) = Ret scores) ->
  yields (detect_anomalies env d dm)
    (fun dm' => anomaly_score dm' = (np_mean scores * (-1))%Q).
Proof.
  intros Hforest Hscores s a s'. unfold detect_anomalies. rewrite Hforest.
  unfold try_except, bind at 1, ext. rewrite Hscores. cbv iota beta zeta.
  unfold bind, when, gauge_set, logger, modify_world, ret.
  destruct (String.eqb (metrics_store d) "prometheus");
    destruct (Qgtb (np_mean scores * (-1)) 0.7);
    intros E; inversion E; reflexivity.
Qed.

(** Steps over [detect_drift] when the anomaly block yields [R] on the
    metrics the first two blocks hand to it. *)
Lemma detect_drift_anomaly_score env s (R : DriftMetrics -> Prop) :
  (forall dm, anomaly_score dm = 0%Q ->
              yields (detect_anomalies env (self s) dm) R) ->
  runs_to (detect_drift env) s (fun metrics _ => R metrics).
Proof.
  intros Hblock. unfold detect_drift.
  eapply runs_bind;
    [auto with method | auto with method | apply yields_any
    | intros ts s1 _ H1].
  apply runs_get_self. rewrite H1.
  eapply runs_bind;
    [apply total_detect_feature_drift | apply preserves_detect_feature_drift
    | apply feature_drift_keeps_anomaly_score | intros dm1 s2 Hdm1 _].
  eapply runs_bind;
    [apply total_detect_prediction_drift
    | apply preserves_detect_prediction_drift
    | apply prediction_drift_keeps_anomaly_score | intros dm2 s3 Hdm2 _].
  eapply runs_bind;
    [apply total_detect_anomalies | apply preserves_detect_anomalies
    | apply (Hblock dm2); rewrite Hdm2, Hdm1; reflexivity
    | intros dm3 s4 Hdm3 _].
  eapply runs_bind;
    [apply total_push_metrics | apply preserves_push_metrics
    | apply yields_any | intros ? s5 _ _].
  eapply runs_bind;
    [apply total_log_drift_metrics | apply preserves_log_drift_metrics
    | apply yields_any | intros ? s6 _ _].
  apply runs_modify_self. apply runs_ret. exact Hdm3.
Qed.

(** C8.  The frame handed to the anomaly model has one column per feature
    with at least [window_size] current values, holding the slice
    [values[-window_size:]] of that feature, which for a positive window is
    its last [window_size] values; features with fewer values are left out.
    A drift check scores that frame and no other: when the model returns
    scores for it, the anomaly score of the returned metrics is minus the
    mean of these scores.  When the model is missing or unfitted, or when
    no feature is complete (scikit-learn then refuses the empty frame), the
    drift check returns with an anomaly score of 0. *)
Theorem anomaly_scoring_uses_complete_features (env : Env) (s : State) :
  let d := self s in
  (forall name col,
     In (name, col) (anomaly_frame d) <->
     exists vals, In (name, vals) (current_features d) /\
                  window_size d <= Py.len vals /\
                  col = Py.slice_from (- window_size d) vals) /\
  (0 < window_size d ->
   forall name col, In (name, col) (anomaly_frame d) ->
     exists vals, In (name, vals) (current_features d) /\
                  col = last_n (window_size d) vals /\
                  Py.len col = window_size d) /\
  (forall forest scores,
     isolation_forest d = Some forest ->
     (forall t, score_samples env t forest (anomaly_frame d) = Ret scores) ->
     runs_to (detect_drift env) s
       (fun metrics _ =>
          anomaly_score metrics = (np_mean scores * (-1))%Q)) /\
  (anomaly_scoring_unavailable env d ->
   runs_to (detect_drift env) s (fun metrics _ => anomaly_score metrics = 0%Q)).
Proof.
  intros d. split; [apply in_anomaly_frame |]. split; [| split].
  - intros Hw name col Hin. apply in_anomaly_frame in Hin.
    destruct Hin as (vals & Hin & Hlen & ->). exists vals.
    rewrite slice_from_neg by lia.
    split; [exact Hin |]. split; [reflexivity | apply len_last_n; lia].
  - intros forest scores Hforest Hscores.
    apply detect_drift_anomaly_score. intros dm _.
    apply (anomalies_scored env d dm forest scores Hforest Hscores).
  - intros Hun. apply detect_drift_anomaly_score. intros dm Hdm s0 a s' E.
    rewrite (anomalies_skipped env d dm Hun s0 a s' E). exact Hdm.
Qed.

Lemma working_env_rejects_empty_frame :
  rejects_empty_frame Examples.working_env.
Proof. intros t forest. destruct forest; eexists; reflexivity. Qed.

Lemma anomaly_scoring_uses_complete_features_witness :
  let d := mkDetector "example_model" "1.0.0" None "local" None 0.05 2
             [("x"%string, Examples.ints [0; 1]);
              ("y"%string, Examples.ints [5; 6])]
             []
             [("x"%string, Examples.ints [1; 2; 3]);
              ("y"%string, Examples.ints [4])]
             (Examples.ints [1; 2; 3]) in
  (exists vals, In ("x"%string, vals) (current_features (d None)) /\
                Examples.ints [2; 3] = last_n 2 vals /\
                Py.len (Examples.ints [2; 3]) = 2) /\
  anomaly_frame (d (Some (Fitted []))) =
    [("x"%string, Examples.ints [2; 3])] /\
  runs_to (detect_drift Examples.working_env)
    (mkState (d (Some (Fitted []))) Examples.fresh_world)
    (fun metrics _ =>
       anomaly_score metrics = (np_mean [(-0.4); (-0.6)] * (-1))%Q) /\
  (np_mean [(-0.4); (-0.6)] * (-1) == 0.5)%Q /\
  runs_to (detect_drift Examples.failing_env)
    (mkState (d None) Examples.fresh_world)
    (fun metrics _ => anomaly_score metrics = 0%Q) /\
  runs_to (detect_drift Examples.working_env)
    (mkState (set_current [("y"%string, Examples.ints [4])] []
                (d (Some (Fitted []))))
       Examples.fresh_world)
    (fun metrics _ => anomaly_score metrics = 0%Q).
Proof.
  intros d. split; [| split; [| split; [| split; [| split]]]].
  - destruct (anomaly_scoring_uses_complete_features Examples.failing_env
                (mkState (d None) Examples.fresh_world)) as (_ & Hlast & _).
    apply (Hlast ltac:(reflexivity) "x"%string (Examples.ints [2; 3])).
    simpl. left. reflexivity.
  - reflexivity.
  - destruct (anomaly_scoring_uses_complete_features Examples.working_env
                (mkState (d (Some (Fitted []))) Examples.fresh_world))
      as (_ & _ & Hscore & _).
    apply (Hscore (Fitted []) [(-0.4)%Q; (-0.6)%Q]); [reflexivity |].
    intros t. reflexivity.
  - reflexivity.
  - apply anomaly_scoring_uses_complete_features. left. reflexivity.
  - apply anomaly_scoring_uses_complete_features. right. right.
    split; [apply working_env_rejects_empty_frame |].
    intros name vals [E | []]. inversion E. reflexivity.
Defined.

(** ** The report *)

Lemma preserves_distribution_chart F env reference current title path :
  preserves F (distribution_chart env reference current title path).
Proof.
  unfold distribution_chart.
  do 6 (apply preserves_bind; [apply preserves_ext | intros _]).
  apply preserves_bind; [| intros _; apply preserves_ext].
  apply (preserves_set_file F path (fun _ => EmptyString)).
Qed.

Lemma preserves_files_write_report env path :
  preserves files_frame (write_report env path).
Proof.
  pose proof (preserves_files_detect_drift env).
  unfold write_report. auto 20 with method.
Qed.

Lemma preserves_files_write_charts env output_path :
  preserves files_frame (write_charts env output_path).
Proof.
  unfold write_charts.
  apply preserves_bind;
    [unfold os_makedirs; destruct (os_is_bound env); auto with method
    | intros _].
  apply preserves_bind; [auto with method | intros d].
  apply preserves_bind; [| intros _; apply preserves_distribution_chart].
  apply preserves_for_each. intros name [].
  destruct (Dict.get name (reference_features d));
    [| auto with method].
  destruct (Dict.get name (current_features d));
    [apply preserves_distribution_chart | auto with method].
Qed.

(** A [with open(path, ...)] block that completes leaves the file in
    place. *)
Lemma with_open_creates {A} env path mode (body : M A) s a s' :
  preserves files_frame body ->
  with_open env path mode body s = (Ret a, s') ->
  Dict.mem path (files (world s')) = true.
Proof.
  intros Hbody. unfold with_open, file_open, bind at 1 2, ext.
  destruct (lib env (tick (world s)) (FileOpen path mode)); [| discriminate].
  unfold modify_world. cbv iota beta.
  set (s1 := mkState _ _).
  assert (H1 : Dict.mem path (files (world s1)) = true).
  { subst s1. simpl. unfold Dict.mem.
    destruct (String.eqb mode "w"); simpl;
      rewrite DictFacts.get_set_same; reflexivity. }
  unfold bind at 1, attempt.
  pose proof (Hbody s1 path H1) as H2.
  destruct (body s1) as [r s2]. simpl in H2.
  unfold bind, ext.
  destruct (lib env (tick (world s2)) (FileClose path)); [| discriminate].
  destruct r; intros E; inversion E; subst; exact H2.
Qed.

(** The report succeeds when the libraries cooperate, and fails when the
    module is imported (the name [os] is then unbound). *)
Example report_succeeds_as_script :
  fst (generate_drift_report Examples.working_env "reports"
         (mkState (Examples.detector 100 [] []) Examples.fresh_world)) =
  Ret "reports/example_model_drift_report_20240101_000000.html"%string.
Proof. vm_compute. reflexivity. Qed.

Example report_fails_without_os :
  let run := generate_drift_report Examples.imported_env "reports"
               (mkState (Examples.detector 100 [] []) Examples.fresh_world) in
  fst run = Ret EmptyString.
Proof. vm_compute. reflexivity. Qed.

(** * Further properties of the detector *)

(** ** What a reset keeps *)

Lemma trim_suffix {A} b (s : list A) : exists front, s = front ++ trim b s.
Proof.
  unfold trim. destruct (Py.len s >? b).
  - unfold Py.slice_from.
    set (n := Z.to_nat _). exists (firstn n s). symmetry. apply firstn_skipn.
  - exists s. symmetry. apply app_nil_r.
Qed.

(** X1.  For every window size, what a reset leaves of a sequence is a
    suffix of that sequence: the reset only drops the oldest elements,
    never reorders and never invents data. *)
Theorem reset_keeps_suffixes (d : DriftDetector) :
  (exists front,
     current_predictions d =
     front ++ current_predictions (_reset_current_data d)) /\
  (forall name kept,
     In (name, kept) (current_features (_reset_current_data d)) ->
     exists front, In (name, front ++ kept) (current_features d)).
Proof.
  split.
  - apply trim_suffix.
  - intros name kept Hin. simpl in Hin.
    apply DictFacts.in_map_values in Hin. destruct Hin as (s & Hin & ->).
    destruct (trim_suffix (buffer_size d) s) as [front Hs].
    exists front. rewrite <- Hs. exact Hin.
Qed.

Lemma reset_twice_clears {A} b (s : list A) : 1 <= b -> trim b (trim b s) = [].
Proof. intros Hb. apply trim_short. apply len_trim_le. exact Hb. Qed.

(** X2.  For a window of ten observations or more, two resets in a row
    (two drift checks with no observation in between) leave every buffer
    empty: the tail kept by the first is not longer than the bound, so the
    second clears it. *)
Theorem second_reset_empties_buffers (d : DriftDetector) :
  10 <= window_size d ->
  let d2 := _reset_current_data (_reset_current_data d) in
  current_predictions d2 = [] /\
  (forall name s, In (name, s) (current_features d2) -> s = []) /\
  Dict.keys (current_features d2) = Dict.keys (current_features d).
Proof.
  intros Hw d2. pose proof (buffer_size_positive d Hw) as Hb.
  split; [| split].
  - apply (reset_twice_clears (buffer_size d) _ Hb).
  - intros name s Hin. simpl in Hin.
    apply DictFacts.in_map_values in Hin. destruct Hin as (s1 & Hin & ->).
    apply DictFacts.in_map_values in Hin. destruct Hin as (s0 & _ & ->).
    apply (reset_twice_clears (buffer_size d) _ Hb).
  - unfold d2. simpl. rewrite !DictFacts.keys_map_values. reflexivity.
Qed.

Lemma second_reset_empties_buffers_witness :
  let d := Examples.detector 20
             [("x"%string, Examples.ints [1; 2; 3; 4; 5])]
             (Examples.ints [1; 2; 3; 4; 5]) in
  current_predictions (_reset_current_data d) = Examples.ints [4; 5] /\
  current_predictions (_reset_current_data (_reset_current_data d)) = [].
Proof.
  intros d. split; [reflexivity |].
  apply (second_reset_empties_buffers d). vm_compute. discriminate.
Defined.

(** ** The buffer after an observation *)

(** X3.  For a window of ten observations or more, [add_observation]
    returns with the prediction appended when the window is not yet full,
    and otherwise (the drift check ran) with exactly the [buffer_size] most
    recent predictions, the new one included. *)
Theorem add_observation_keeps_most_recent (env : Env)
    (features : Dict.t Py.value) (prediction : Py.value)
    (ground_truth : option Py.value) (s : State) :
  10 <= window_size (self s) ->
  let d := self s in
  let extended := current_predictions d ++ [prediction] in
  runs_to (add_observation env features prediction ground_truth) s
    (fun _ s' =>
       if window_size d <=? Py.len extended
       then current_predictions (self s') = last_n (buffer_size d) extended /\
            Py.len (current_predictions (self s')) = buffer_size d
       else current_predictions (self s') = extended).
Proof.
  intros Hw d extended. subst d.
  destruct (add_observation_runs env features prediction ground_truth s)
    as (a & s' & E & Hs').
  exists a, s'. split; [exact E |]. rewrite Hs'. clear E Hs'.
  set (d1 := record_observation features prediction (self s)).
  pose proof (buffer_size_positive (self s) Hw) as Hb.
  assert (Hlt : buffer_size (self s) < window_size (self s))
    by (apply buffer_size_below_window; lia).
  unfold is_ready. change (window_size d1) with (window_size (self s)).
  change (current_predictions d1) with extended. rewrite Z.geb_leb.
  destruct (window_size (self s) <=? Py.len extended) eqn:Hfull.
  - apply Z.leb_le in Hfull.
    change (current_predictions (_reset_current_data d1))
      with (trim (buffer_size (self s)) extended).
    assert (Hlong : 1 <= buffer_size (self s) < Py.len extended) by lia.
    rewrite (trim_last_n _ _ Hlong).
    split; [reflexivity | apply len_last_n; lia].
  - reflexivity.
Qed.

Lemma add_observation_keeps_most_recent_witness :
  let d := Examples.detector 20 []
             (map Py.PyInt (map Z.of_nat (seq 1 19))) in
  runs_to (add_observation Examples.failing_env [] (Py.PyInt 20) None)
    (mkState d Examples.fresh_world)
    (fun _ s' => current_predictions (self s') = Examples.ints [19; 20]).
Proof.
  intros d.
  assert (Hw : 10 <= window_size (self (mkState d Examples.fresh_world)))
    by (vm_compute; discriminate).
  destruct (add_observation_keeps_most_recent Examples.failing_env []
              (Py.PyInt 20) None (mkState d Examples.fresh_world) Hw)
    as (a & s' & E & H).
  exists a, s'. split; [exact E |].
  vm_compute in H. exact (proj1 H).
Defined.

(** ** What the public methods never change *)

Lemma preserves_settings_reset :
  preserves settings_frame (modify_self _reset_current_data).
Proof. intros s. reflexivity. Qed.

Lemma preserves_settings_record features prediction :
  preserves settings_frame
    (modify_self (record_observation features prediction)).
Proof. intros s. reflexivity. Qed.

Lemma preserves_detect_drift_blocks F env :
  preserves F (modify_self _reset_current_data) ->
  preserves F (detect_drift env).
Proof.
  intros Hreset. unfold detect_drift.
  apply preserves_bind; [auto with method | intros ts].
  apply preserves_bind; [auto with method | intros d].
  apply preserves_bind; [apply preserves_detect_feature_drift | intros dm1].
  apply preserves_bind; [apply preserves_detect_prediction_drift | intros dm2].
  apply preserves_bind; [apply preserves_detect_anomalies | intros dm3].
  apply preserves_bind; [apply preserves_push_metrics | intros _].
  apply preserves_bind; [apply preserves_log_drift_metrics | intros _].
  apply preserves_bind; [exact Hreset | intros _; auto with method].
Qed.

Lemma preserves_write_report F env path :
  preserves F (modify_self _reset_current_data) ->
  preserves F (write_report env path).
Proof.
  intros Hreset. pose proof (preserves_detect_drift_blocks F env Hreset).
  unfold write_report. auto 20 with method.
Qed.

Lemma preserves_write_charts F env output_path :
  preserves F (write_charts env output_path).
Proof.
  unfold write_charts.
  apply preserves_bind;
    [unfold os_makedirs; destruct (os_is_bound env); auto with method
    | intros _].
  apply preserves_bind; [auto with method | intros d].
  apply preserves_bind; [| intros _; apply preserves_distribution_chart].
  apply preserves_for_each. intros name [].
  destruct (Dict.get name (reference_features d)); [| auto with method].
  destruct (Dict.get name (current_features d));
    [apply preserves_distribution_chart | auto with method].
Qed.

Lemma preserves_generate_drift_report F env output_path :
  preserves F (modify_self _reset_current_data) ->
  preserves F (generate_drift_report env output_path).
Proof.
  intros Hreset. pose proof (preserves_write_report F env) as Hw.
  pose proof (preserves_write_charts F env output_path).
  unfold generate_drift_report.
  apply preserves_bind; [auto with method | intros ts].
  apply preserves_bind; [auto with method | intros d].
  apply preserves_try_except; [| auto with method].
  apply preserves_bind; [apply preserves_with_open; auto | intros _].
  auto with method.
Qed.

(** X4.  Whatever the libraries answer and whether or not something fails
    on the way, [add_observation], [detect_drift] and
    [generate_drift_report] change nothing of the detector but its two
    observation buffers: configuration, reference data and anomaly model
    are as before. *)
Theorem public_methods_keep_settings (env : Env) (s : State) :
  (forall features prediction ground_truth,
     settings (self (snd (add_observation env features prediction
                            ground_truth s))) = settings (self s)) /\
  settings (self (snd (detect_drift env s))) = settings (self s) /\
  (forall output_path,
     settings (self (snd (generate_drift_report env output_path s)))
     = settings (self s)).
Proof.
  pose proof (preserves_detect_drift_blocks settings_frame env
                preserves_settings_reset)
    as Hd.
  split; [| split].
  - intros features prediction ground_truth.
    assert (H : preserves settings_frame
                  (add_observation env features prediction ground_truth)).
    { unfold add_observation.
      apply preserves_bind; [apply preserves_settings_record | intros _].
      apply preserves_bind; [auto with method | intros d].
      destruct (is_ready d); auto with method. }
    apply H.
  - apply Hd.
  - intros output_path.
    apply (preserves_generate_drift_report settings_frame env output_path
             preserves_settings_reset).
Qed.

(** ** The report when the module is imported *)

(** X5.  When the name [os] is unbound (the module is imported, not run as
    a script), [generate_drift_report] returns the empty string whatever
    else happens: the chart section raises [NameError] if it is reached. *)
Theorem report_fails_when_imported (env : Env) (output_path : string)
    (s : State) :
  os_is_bound env = false ->
  fst (generate_drift_report env output_path s) = Ret EmptyString.
Proof.
  intros Hos.
  unfold generate_drift_report, bind at 1 2, datetime_now, get_self.
  cbv iota beta. unfold try_except.
  set (s1 := mkState _ _). set (path := report_path_of _ _ _).
  unfold bind at 1.
  destruct (with_open env path "w" (write_report env path) s1)
    as [[[] | e] s2]; [| reflexivity].
  unfold bind at 1, write_charts, bind at 1, os_makedirs.
  rewrite Hos. reflexivity.
Qed.

(** Every library call succeeds and the report file is written, yet the
    call returns the empty string because [os] is unbound; the same call
    with [os] bound returns the path. *)
Lemma report_fails_when_imported_witness :
  let s := mkState (Examples.detector 100 [] []) Examples.fresh_world in
  fst (generate_drift_report Examples.imported_env "reports" s)
    = Ret EmptyString /\
  Dict.mem "reports/example_model_drift_report_20240101_000000.html"
    (files (world (snd (generate_drift_report Examples.imported_env
                          "reports" s)))) = true /\
  fst (generate_drift_report Examples.working_env "reports" s)
    = Ret "reports/example_model_drift_report_20240101_000000.html"%string.
Proof.
  intros s. split; [| split].
  - apply report_fails_when_imported. reflexivity.
  - vm_compute. reflexivity.
  - vm_compute. reflexivity.
Defined.

(** ** The constructor *)

Lemma total_init_tail env name version path :
  total
    (match truthy path with
     | Some p => _load_reference_data env p
     | None => ret tt
     end ;;;
     logger INFO
       ("Initialized drift detector for model: " ++ name ++ " v"
        ++ version)%string).
Proof.
  pose proof (total_load_reference_data env).
  destruct (truthy path); auto with method.
Qed.

(** X6.  The constructor raises exactly when the metrics store is
    prometheus and registering the gauges raises, with that exception;
    reading the reference data never makes it raise. *)
Theorem constructor_raises_only_from_gauges (env : Env)
    (name version : string) (path : option string) (store : string)
    (url : option string) (threshold : Q) (wsize : Z) (s : State) (e : exn) :
  fst (__init__ env name version path store url threshold wsize s) = Raise e
  <->
  store = "prometheus"%string /\
  fst (_init_prometheus_metrics env
         (mkState
            (initial_detector name version path store url threshold wsize)
            (world s))) = Raise e.
Proof.
  assert (Htail : forall s1 : State,
    fst (match
           match truthy path with
           | Some p => _load_reference_data env p
           | None => ret tt
           end s1
         with
         | (Ret _, s2) =>
             logger INFO
               ("Initialized drift detector for model: " ++ name ++ " v"
                ++ version)%string s2
         | (Raise e1, s2) => (Raise e1, s2)
         end) = Ret tt).
  { intros s1. destruct (total_init_tail env name version path s1) as [[] Ht].
    exact Ht. }
  rewrite init_steps. unfold initial_detector.
  set (s0 := mkState _ _).
  destruct (String.eqb store "prometheus") eqn:Hstore.
  - apply String.eqb_eq in Hstore. simpl when.
    destruct (_init_prometheus_metrics env s0) as [[[] | e0] s1].
    + rewrite Htail. simpl.
      split; [discriminate | intros [_ H]; discriminate H].
    + simpl. split; [intros H; split; [exact Hstore | exact H] | tauto].
  - apply String.eqb_neq in Hstore. simpl when. unfold ret at 1.
    rewrite Htail. split; [discriminate | tauto].
Qed.

(** ** Drift checks run by the report *)

Lemma ensures_ret {A} (a : A) : ensures (ret a) (reset_times 0).
Proof. intros s a' s' E. inversion E. reflexivity. Qed.

Lemma ensures_keeps_self {A} (m : M A) :
  preserves self_frame m -> ensures m (reset_times 0).
Proof. intros Hm s a s' E. specialize (Hm s). rewrite E in Hm. exact Hm. Qed.

Lemma ensures_detect_drift env : ensures (detect_drift env) (reset_times 1).
Proof.
  intros s a s' E. destruct (detect_drift_resets env s) as (a' & s1 & E1 & H).
  rewrite E in E1. inversion E1; subst. exact H.
Qed.

Lemma ensures_bind {A B} (m : M A) (k : A -> M B) (i j n : nat) :
  ensures m (reset_times i) ->
  (forall a, ensures (k a) (reset_times j)) ->
  n = (j + i)%nat ->
  ensures (bind m k) (reset_times n).
Proof.
  intros Hm Hk -> s b s'. unfold bind.
  destruct (m s) as [[a | e] s1] eqn:E; [| discriminate].
  intros Ek. pose proof (Hm s a s1 E) as H1.
  pose proof (Hk a s1 b s' Ek) as H2.
  unfold reset_times, resets in *. rewrite Nat.iter_add, <- H1. exact H2.
Qed.

Lemma ensures_with_open {A} env path mode (body : M A) n :
  ensures body (reset_times n) ->
  ensures (with_open env path mode body) (reset_times n).
Proof.
  intros Hbody s a s'. unfold with_open.
  pose proof (preserves_file_open self_frame env path mode s) as Hopen.
  unfold bind at 1.
  destruct (file_open env path mode s) as [[[] | e] s1]; [| discriminate].
  simpl in Hopen. unfold bind at 1, attempt.
  destruct (body s1) as [r s2] eqn:Eb. unfold bind, ext.
  destruct (lib env (tick (world s2)) (FileClose path)); [| discriminate].
  destruct r as [a' | e]; [| discriminate].
  intros E. inversion E; subst. unfold reset_times. simpl.
  rewrite <- Hopen. apply (Hbody s1 a s2 Eb).
Qed.

Lemma ensures_write_report env path :
  ensures (write_report env path) (reset_times 3).
Proof.
  pose proof (ensures_detect_drift env) as Hd.
  assert (Hw : forall data,
            ensures (file_write env path data) (reset_times 0))
    by (intros; apply ensures_keeps_self; auto with method).
  unfold write_report.
  eapply ensures_bind;
    [apply ensures_keeps_self; auto with method | intros d |].
  eapply ensures_bind;
    [apply ensures_keeps_self; auto with method | intros generated |].
  eapply ensures_bind; [apply Hw | intros _ |].
  eapply ensures_bind; [apply Hd | intros metrics1 |].
  eapply ensures_bind;
    [apply ensures_keeps_self; auto with method | intros _ |].
  eapply ensures_bind; [apply Hd | intros metrics2 |].
  eapply ensures_bind; [apply Hw | intros _ |].
  eapply ensures_bind; [apply Hd | intros metrics3 |].
  eapply ensures_bind; [apply Hw | intros _; apply Hw |].
  all: reflexivity.
Qed.

Lemma trim_nil {A} b : trim b (@nil A) = [].
Proof.
  unfold trim. destruct (Py.len [] >? b); [| reflexivity].
  unfold Py.slice_from. apply skipn_nil.
Qed.

Lemma reset_predictions d :
  current_predictions (_reset_current_data d) =
  trim (buffer_size d) (current_predictions d).
Proof. reflexivity. Qed.

Lemma reset_features d :
  current_features (_reset_current_data d) =
  Dict.map_values (trim (buffer_size d)) (current_features d).
Proof. reflexivity. Qed.

Lemma resets_empty n (d : DriftDetector) :
  1 <= buffer_size d ->
  current_predictions (resets (S (S n)) d) = [] /\
  forall name s, In (name, s) (current_features (resets (S (S n)) d)) ->
                 s = [].
Proof.
  intros Hb. induction n as [| n IH].
  - change (resets 2 d) with (_reset_current_data (_reset_current_data d)).
    split.
    + rewrite !reset_predictions.
      apply (reset_twice_clears (buffer_size d) _ Hb).
    + intros name s Hin. rewrite !reset_features in Hin.
      apply DictFacts.in_map_values in Hin. destruct Hin as (s1 & Hin & ->).
      apply DictFacts.in_map_values in Hin. destruct Hin as (s0 & _ & ->).
      apply (reset_twice_clears (buffer_size d) _ Hb).
  - destruct IH as [IHp IHf].
    change (resets (S (S (S n))) d)
      with (_reset_current_data (resets (S (S n)) d)).
    split.
    + rewrite reset_predictions, IHp. apply trim_nil.
    + intros name s Hin. rewrite reset_features in Hin.
      apply DictFacts.in_map_values in Hin.
      destruct Hin as (s1 & Hin & ->).
      rewrite (IHf name s1 Hin). apply trim_nil.
Qed.

Lemma report_path_not_empty output_path d timestamp :
  report_path_of output_path d timestamp <> EmptyString.
Proof. unfold report_path_of. destruct output_path; discriminate. Qed.

(** X7.  A report that is generated (the call returns a path, not the
    empty string) has run three drift checks: the detector is left reset
    three times, so for a window of ten observations or more every
    observation buffer is empty afterwards. *)
Theorem generated_report_empties_buffers (env : Env) (output_path : string)
    (s s' : State) (path : string) :
  generate_drift_report env output_path s = (Ret path, s') ->
  path <> EmptyString ->
  self s' = resets 3 (self s) /\
  (10 <= window_size (self s) ->
   current_predictions (self s') = [] /\
   forall name vals, In (name, vals) (current_features (self s')) ->
                     vals = []).
Proof.
  intros E Hpath.
  assert (Hself : self s' = resets 3 (self s)).
  { revert E.
    unfold generate_drift_report, bind at 1 2, datetime_now, get_self.
    cbv iota beta. unfold try_except.
    set (s1 := mkState _ _). set (report := report_path_of _ _ _).
    destruct ((with_open env report "w" (write_report env report) ;;;
               write_charts env output_path ;;;
               logger INFO ("Generated drift report at: " ++ report) ;;;
               ret report) s1) as [[p | e] s2] eqn:Ebody.
    - intros E. inversion E; subst p s2.
      assert (Hbody : ensures
                (with_open env report "w" (write_report env report) ;;;
                 write_charts env output_path ;;;
                 logger INFO ("Generated drift report at: " ++ report) ;;;
                 ret report) (reset_times 3)).
      { eapply ensures_bind;
          [apply ensures_with_open; apply ensures_write_report | intros _ |].
        eapply ensures_bind;
          [apply ensures_keeps_self; apply preserves_write_charts
          | intros _ |].
        eapply ensures_bind;
          [apply ensures_keeps_self; auto with method
          | intros _; apply ensures_ret |].
        all: reflexivity. }
      apply (Hbody s1 path s' Ebody).
    - unfold bind, logger, modify_world, ret. intros E.
      inversion E. congruence. }
  split; [exact Hself |].
  intros Hw. rewrite Hself. apply (resets_empty 1).
  apply buffer_size_positive. exact Hw.
Qed.

Lemma generated_report_empties_buffers_witness :
  let s := mkState
             (Examples.detector 20
                [("x"%string, Examples.ints [1; 2; 3; 4; 5])]
                (Examples.ints [1; 2; 3; 4; 5]))
             Examples.fresh_world in
  exists s',
    generate_drift_report Examples.working_env "reports" s =
      (Ret "reports/example_model_drift_report_20240101_000000.html"%string,
       s') /\
    current_predictions (self s') = [] /\
    current_features (self s') = [("x"%string, [])].
Proof.
  intros s. eexists. split; [vm_compute; reflexivity |].
  split; [| vm_compute; reflexivity].
  refine (proj1 (proj2 (generated_report_empties_buffers
    Examples.working_env "reports" s _
    "reports/example_model_drift_report_20240101_000000.html"
    ltac:(vm_compute; reflexivity) ltac:(discriminate))
    ltac:(vm_compute; discriminate))).
Defined.

(** ** The metrics a drift check returns *)

Lemma yields_bind_from {A B} (m : M A) (k : A -> M B) (R1 : A -> Prop)
    (R : B -> Prop) :
  yields m R1 -> (forall a, R1 a -> yields (k a) R) -> yields (bind m k) R.
Proof.
  intros Hm Hk s b s'. unfold bind.
  destruct (m s) as [[a | e] s1] eqn:E; [| discriminate].
  apply (Hk a (Hm s a s1 E)).
Qed.

Lemma yields_and {A} (m : M A) (R1 R2 : A -> Prop) :
  yields m R1 -> yields m R2 -> yields m (fun a => R1 a /\ R2 a).
Proof. intros H1 H2 s a s' E. split; [eapply H1 | eapply H2]; exact E. Qed.

Lemma yields_for_each_prefix {A B} (l : list A) (acc : B)
    (body : A -> B -> M B) (R : list A -> B -> Prop) :
  R [] acc ->
  (forall pre x b, R pre b -> yields (body x b) (R (pre ++ [x]))) ->
  yields (for_each l acc body) (R l).
Proof.
  intros Hacc Hbody.
  assert (H : forall pre acc0, R pre acc0 ->
            yields (for_each l acc0 body) (R (pre ++ l))).
  { induction l as [| x l IH]; intros pre acc0 Hpre; simpl.
    - rewrite app_nil_r. apply yields_ret. exact Hpre.
    - intros s b s'. unfold bind.
      destruct (body x acc0 s) as [[b1 | e] s1] eqn:E; [| discriminate].
      replace (pre ++ x :: l) with ((pre ++ [x]) ++ l)
        by (rewrite <- app_assoc; reflexivity).
      apply IH. eapply Hbody; eassumption. }
  apply (H [] acc Hacc).
Qed.

Section Projections.
Variable env : Env.
Variable d : DriftDetector.
Variable X : Type.
Variable proj : DriftMetrics -> X.

Lemma feature_drift_block_keeps dm :
  (forall k v m, proj (set_feature_drift k v m) = proj m) ->
  yields (detect_feature_drift env d dm) (fun dm' => proj dm' = proj dm).
Proof.
  intros Hset. unfold detect_feature_drift.
  apply yields_for_each; [reflexivity |].
  intros [name vals] b Hb. simpl.
  destruct (Dict.get name (reference_features d));
    [| apply yields_ret; exact Hb].
  destruct (Py.len vals >? 0); [| apply yields_ret; exact Hb].
  repeat (apply yields_bind; intros ?). apply yields_ret.
  rewrite Hset. exact Hb.
Qed.

Lemma prediction_drift_block_keeps dm :
  (forall v m, proj (set_prediction_drift v m) = proj m) ->
  yields (detect_prediction_drift env d dm) (fun dm' => proj dm' = proj dm).
Proof.
  intros Hset. unfold detect_prediction_drift.
  destruct (_ && _); [| apply yields_ret; reflexivity].
  repeat (apply yields_bind; intros ?). apply yields_ret. apply Hset.
Qed.

Lemma anomalies_block_keeps dm :
  (forall v m, proj (set_anomaly_score v m) = proj m) ->
  yields (detect_anomalies env d dm) (fun dm' => proj dm' = proj dm).
Proof.
  intros Hset. unfold detect_anomalies.
  destruct (isolation_forest d); [| apply yields_ret; reflexivity].
  apply yields_try_except.
  - repeat (apply yields_bind; intros ?). apply yields_ret. apply Hset.
  - intros e. apply yields_bind. intros _. apply yields_ret. reflexivity.
Qed.
End Projections.

(** Steps over the blocks of [detect_drift]: the returned metrics are
    those of the anomaly block, whose input is built by the two blocks
    before it from the initial metrics. *)
Lemma detect_drift_metrics env s (R1 R2 R3 : DriftMetrics -> Prop) :
  let d := self s in
  (forall ts, R1 (mkMetrics ts (model_name d) (model_version d) [] 0 0 0)) ->
  (forall dm, R1 dm -> yields (detect_feature_drift env d dm) R2) ->
  (forall dm, R2 dm -> yields (detect_prediction_drift env d dm) R3) ->
  (forall dm, R3 dm -> yields (detect_anomalies env d dm) R3) ->
  runs_to (detect_drift env) s (fun dm _ => R3 dm).
Proof.
  intros d H0 H1 H2 H3. unfold detect_drift.
  eapply runs_bind;
    [auto with method | auto with method | apply yields_any
    | intros ts s1 _ Hs1].
  apply runs_get_self. rewrite Hs1. fold d.
  eapply runs_bind;
    [apply total_detect_feature_drift | apply preserves_detect_feature_drift
    | apply (H1 _ (H0 ts)) | intros dm1 s2 Hdm1 _].
  eapply runs_bind;
    [apply total_detect_prediction_drift
    | apply preserves_detect_prediction_drift
    | apply (H2 _ Hdm1) | intros dm2 s3 Hdm2 _].
  eapply runs_bind;
    [apply total_detect_anomalies | apply preserves_detect_anomalies
    | apply (H3 _ Hdm2) | intros dm3 s4 Hdm3 _].
  eapply runs_bind;
    [apply total_push_metrics | apply preserves_push_metrics
    | apply yields_any | intros ? s5 _ _].
  eapply runs_bind;
    [apply total_log_drift_metrics | apply preserves_log_drift_metrics
    | apply yields_any | intros ? s6 _ _].
  apply runs_modify_self. apply runs_ret. exact Hdm3.
Qed.

(** X8.  Every drift check reports a concept drift of 0: the field is
    initialised and never computed.  The metrics carry the model name and
    version of the detector. *)
Theorem concept_drift_is_never_computed (env : Env) (s : State) :
  runs_to (detect_drift env) s
    (fun metrics _ =>
       concept_drift metrics = 0%Q /\
       dm_model_name metrics = model_name (self s) /\
       dm_model_version metrics = model_version (self s)).
Proof.
  set (proj := fun m => (concept_drift m, dm_model_name m, dm_model_version m)).
  set (R := fun m =>
              proj m = (0%Q, model_name (self s), model_version (self s))).
  assert (H : runs_to (detect_drift env) s (fun dm _ => R dm)).
  { apply (detect_drift_metrics env s R R R).
    - intros ts. reflexivity.
    - intros dm Hdm s0 a s' E. unfold R. rewrite <- Hdm.
      apply (feature_drift_block_keeps env (self s) _ proj dm
               (fun _ _ _ => eq_refl) s0 a s' E).
    - intros dm Hdm s0 a s' E. unfold R. rewrite <- Hdm.
      apply (prediction_drift_block_keeps env (self s) _ proj dm
               (fun _ _ => eq_refl) s0 a s' E).
    - intros dm Hdm s0 a s' E. unfold R. rewrite <- Hdm.
      apply (anomalies_block_keeps env (self s) _ proj dm
               (fun _ _ => eq_refl) s0 a s' E). }
  destruct H as (dm & s' & E & HR). exists dm, s'. split; [exact E |].
  unfold R, proj in HR. inversion HR. auto.
Qed.

Lemma mem_set_iff {V} k k' (v : V) d :
  Dict.mem k (Dict.set k' v d) = true <-> k = k' \/ Dict.mem k d = true.
Proof.
  unfold Dict.mem. destruct (string_dec k k') as [-> | Hne].
  - rewrite DictFacts.get_set_same. tauto.
  - rewrite DictFacts.get_set_other by assumption.
    split; [tauto | intros [H | H]; [contradiction | exact H]].
Qed.

Lemma in_set {V} k k' (v v' : V) d :
  In (k, v) (Dict.set k' v' d) -> (k = k' /\ v = v') \/ In (k, v) d.
Proof.
  induction d as [| [k2 v2] d IH]; simpl.
  - intros [E | []]. inversion E. auto.
  - destruct (String.eqb k' k2); simpl.
    + intros [E | H]; [inversion E |]; auto.
    + intros [E | H]; [auto | destruct (IH H); auto].
Qed.

Lemma len_positive {A} (l : list A) : (Py.len l >? 0) = true <-> l <> [].
Proof.
  rewrite Z.gtb_ltb, Z.ltb_lt. unfold Py.len.
  destruct l; simpl; split; intros H; try lia; congruence.
Qed.

Lemma mem_of_get {V} k (d : Dict.t V) :
  Dict.mem k d = true <-> exists v, Dict.get k d = Some v.
Proof.
  unfold Dict.mem. destruct (Dict.get k d) as [v |].
  - split; eauto.
  - split; [discriminate | intros [v H]; discriminate H].
Qed.

(** The features scored by the loop over the current features. *)
Lemma feature_drift_block_scores env d dm :
  feature_drift dm = [] ->
  yields (detect_feature_drift env d dm)
    (fun dm' => forall name,
       Dict.mem name (feature_drift dm') = true <-> scored d name).
Proof.
  intros Hempty. unfold detect_feature_drift, scored.
  apply (yields_for_each_prefix (current_features d) dm _
    (fun pre acc => forall name,
       Dict.mem name (feature_drift acc) = true <->
       exists vals, In (name, vals) pre /\
                    Dict.mem name (reference_features d) = true /\
                    vals <> [])).
  - intros name. rewrite Hempty. split; [discriminate |].
    intros (vals & [] & _).
  - intros pre [n vals] b Hb. simpl.
    assert (Hskip : (Dict.mem n (reference_features d) = true /\ vals <> []
                     -> False) ->
              forall name,
                Dict.mem name (feature_drift b) = true <->
                exists vals0, In (name, vals0) (pre ++ [(n, vals)]) /\
                              Dict.mem name (reference_features d) = true /\
                              vals0 <> []).
    { intros Hno name. rewrite Hb. split.
      - intros (v & Hin & Hrest). exists v. split; [| exact Hrest].
        apply in_or_app. left. exact Hin.
      - intros (v & Hin & Hm & Hv). apply in_app_or in Hin.
        destruct Hin as [Hin | [E | []]]; [eauto |].
        inversion E; subst. exfalso. apply Hno. auto. }
    destruct (Dict.get n (reference_features d)) as [r |] eqn:Hget.
    + destruct (Py.len vals >? 0) eqn:Hlen.
      * repeat (apply yields_bind; intros ?). apply yields_ret.
        intros name. simpl. rewrite mem_set_iff, Hb. split.
        -- intros [-> | (v & Hin & Hrest)].
           ++ exists vals. split; [apply in_or_app; right; left; reflexivity |].
              split; [apply mem_of_get; eauto | apply len_positive; exact Hlen].
           ++ exists v. split; [apply in_or_app; left; exact Hin | exact Hrest].
        -- intros (v & Hin & Hm & Hv). apply in_app_or in Hin.
           destruct Hin as [Hin | [E | []]]; [right; eauto |].
           inversion E. left. reflexivity.
      * apply yields_ret. apply Hskip. intros [_ Hv].
        apply len_positive in Hv. congruence.
    + apply yields_ret. apply Hskip. intros [Hm _].
      apply mem_of_get in Hm. destruct Hm as [v Hv]. congruence.
Qed.

(** X9.  The metrics of a drift check hold a drift score for exactly the
    features that have reference values and at least one current value;
    features without reference data, or without numeric observations since
    the last reset, are left out. *)
Theorem scored_features (env : Env) (s : State) :
  runs_to (detect_drift env) s
    (fun metrics _ => forall name,
       Dict.mem name (feature_drift metrics) = true <-> scored (self s) name).
Proof.
  set (R := fun dm : DriftMetrics => forall name,
              Dict.mem name (feature_drift dm) = true <-> scored (self s) name).
  apply (detect_drift_metrics env s (fun dm => feature_drift dm = []) R R).
  - reflexivity.
  - intros dm Hdm. apply feature_drift_block_scores. exact Hdm.
  - intros dm Hdm s0 a s' E name.
    rewrite (prediction_drift_block_keeps env (self s) _ feature_drift dm
               (fun _ _ => eq_refl) s0 a s' E).
    apply Hdm.
  - intros dm Hdm s0 a s' E name.
    rewrite (anomalies_block_keeps env (self s) _ feature_drift dm
               (fun _ _ => eq_refl) s0 a s' E).
    apply Hdm.
Qed.

(** X10.  A detector without reference features and reference predictions
    reports no drift whatever it has observed: no feature score and a
    prediction drift of 0 (and an anomaly score of 0 when it has no
    model). *)
Theorem no_reference_no_drift (env : Env) (s : State) :
  reference_features (self s) = [] ->
  reference_predictions (self s) = [] ->
  runs_to (detect_drift env) s
    (fun metrics _ =>
       feature_drift metrics = [] /\
       prediction_drift metrics = 0%Q /\
       (isolation_forest (self s) = None -> anomaly_score metrics = 0%Q)).
Proof.
  intros Hrf Hrp.
  set (R := fun dm : DriftMetrics =>
              feature_drift dm = [] /\ prediction_drift dm = 0%Q /\
              (isolation_forest (self s) = None -> anomaly_score dm = 0%Q)).
  apply (detect_drift_metrics env s R R R).
  - intros ts. repeat split.
  - intros dm Hdm. unfold detect_feature_drift.
    apply yields_for_each; [exact Hdm |].
    intros [name vals] b Hb. simpl. rewrite Hrf. simpl.
    apply yields_ret. exact Hb.
  - intros dm Hdm. unfold detect_prediction_drift. rewrite Hrp. simpl.
    apply yields_ret. exact Hdm.
  - intros dm (Hf & Hp & Ha) s0 a s' E.
    pose proof (anomalies_block_keeps env (self s) _
                  (fun m => (feature_drift m, prediction_drift m)) dm
                  (fun _ _ => eq_refl) s0 a s' E) as Hkeep.
    inversion Hkeep as [[Hf' Hp']].
    split; [congruence |]. split; [congruence |].
    intros Hnone. revert E. unfold detect_anomalies. rewrite Hnone.
    intros E. inversion E; subst. apply Ha. exact Hnone.
Qed.

Lemma no_reference_no_drift_witness :
  runs_to (detect_drift Examples.working_env)
    (mkState
       (Examples.detector 20 [("x"%string, Examples.ints [1; 2; 3])]
          (Examples.ints [1; 2; 3]))
       Examples.fresh_world)
    (fun metrics _ =>
       feature_drift metrics = [] /\ prediction_drift metrics = 0%Q).
Proof.
  destruct (no_reference_no_drift Examples.working_env
    (mkState
       (Examples.detector 20 [("x"%string, Examples.ints [1; 2; 3])]
          (Examples.ints [1; 2; 3]))
       Examples.fresh_world) eq_refl eq_refl) as (dm & s' & E & Hf & Hp & _).
  exists dm, s'. auto.
Defined.

Lemma calculate_distribution_drift_range env r c :
  p_values_in_range env ->
  yields (_calculate_distribution_drift env r c)
    (fun score => (0 <= score <= 1)%Q).
Proof.
  intros Hrange s a s'.
  unfold _calculate_distribution_drift, try_except, bind, ext.
  destruct (ks_2samp env (tick (world s)) r c) as [[k p] | e] eqn:Hks.
  - intros E. inversion E; subst.
    pose proof (Hrange _ _ _ _ _ Hks) as [H0 H1]. simpl. split; lra.
  - unfold logger, modify_world, ret. intros E. inversion E; subst.
    split; [apply Qle_refl | discriminate].
Qed.

(** X11.  When the two-sample test reports p-values in [0, 1], every
    feature score and the prediction drift returned by a drift check lie
    in [0, 1]. *)
Theorem drift_scores_in_unit_interval (env : Env) (s : State) :
  p_values_in_range env ->
  runs_to (detect_drift env) s
    (fun metrics _ =>
       (forall name score, In (name, score) (feature_drift metrics) ->
                           (0 <= score <= 1)%Q) /\
       (0 <= prediction_drift metrics <= 1)%Q).
Proof.
  intros Hrange.
  set (Rf := fun dm : DriftMetrics =>
               forall name score, In (name, score) (feature_drift dm) ->
                                  (0 <= score <= 1)%Q).
  set (Rp := fun dm : DriftMetrics => (0 <= prediction_drift dm <= 1)%Q).
  set (R := fun dm => Rf dm /\ Rp dm).
  apply (detect_drift_metrics env s R R R).
  - intros ts. split; [intros name score [] |].
    split; [apply Qle_refl | discriminate].
  - intros dm [Hf Hp]. apply yields_and.
    + unfold detect_feature_drift. apply yields_for_each; [exact Hf |].
      intros [name vals] b Hb. simpl.
      destruct (Dict.get name (reference_features (self s)));
        [| apply yields_ret; exact Hb].
      destruct (Py.len vals >? 0); [| apply yields_ret; exact Hb].
      eapply yields_bind_from;
        [apply (calculate_distribution_drift_range env _ _ Hrange) |].
      intros score Hscore.
      repeat (apply yields_bind; intros ?). apply yields_ret.
      intros k v Hin. simpl in Hin. apply in_set in Hin.
      destruct Hin as [[_ ->] | Hin]; [exact Hscore | apply (Hb k v Hin)].
    + intros s0 a s' E. unfold Rp.
      rewrite (feature_drift_block_keeps env (self s) _ prediction_drift dm
                 (fun _ _ _ => eq_refl) s0 a s' E).
      exact Hp.
  - intros dm [Hf Hp]. unfold detect_prediction_drift.
    destruct (_ && _); [| apply yields_ret; split; assumption].
    eapply yields_bind_from;
      [apply (calculate_distribution_drift_range env _ _ Hrange) |].
    intros score Hscore.
    repeat (apply yields_bind; intros ?). apply yields_ret.
    split; [exact Hf | exact Hscore].
  - intros dm [Hf Hp] s0 a s' E.
    pose proof (anomalies_block_keeps env (self s) _
                  (fun m => (feature_drift m, prediction_drift m)) dm
                  (fun _ _ => eq_refl) s0 a s' E) as Hkeep.
    inversion Hkeep as [[Hf' Hp']]. unfold R, Rf, Rp.
    rewrite Hf', Hp'. split; assumption.
Qed.

Lemma working_env_p_values_in_range : p_values_in_range Examples.working_env.
Proof.
  intros t r c k p E. inversion E; subst. split; discriminate.
Qed.

Lemma drift_scores_in_unit_interval_witness :
  runs_to (detect_drift Examples.working_env)
    (mkState
       (mkDetector "example_model" "1.0.0" None "local" None 0.05 20
          [("x"%string, Examples.ints [0; 1])] (Examples.ints [0; 1])
          [("x"%string, Examples.ints [1; 2; 3])] (Examples.ints [1; 2; 3])
          None)
       Examples.fresh_world)
    (fun metrics _ => (0 <= prediction_drift metrics <= 1)%Q).
Proof.
  destruct (drift_scores_in_unit_interval Examples.working_env
    (mkState
       (mkDetector "example_model" "1.0.0" None "local" None 0.05 20
          [("x"%string, Examples.ints [0; 1])] (Examples.ints [0; 1])
          [("x"%string, Examples.ints [1; 2; 3])] (Examples.ints [1; 2; 3])
          None)
       Examples.fresh_world) working_env_p_values_in_range)
    as (dm & s' & E & _ & Hp).
  exists dm, s'. auto.
Defined.

(** ** Effects on the world *)

Section WorldInvariance.
Variable X : Type.
Variable obs : World -> X.

Lemma keeps_world_ret {A} (a : A) : keeps_world obs (ret a).
Proof. intros s. reflexivity. Qed.

Lemma keeps_world_raise {A} (e : exn) : keeps_world obs (@raise A e).
Proof. intros s. reflexivity. Qed.

Lemma keeps_world_bind {A B} (m : M A) (k : A -> M B) :
  keeps_world obs m -> (forall a, keeps_world obs (k a)) ->
  keeps_world obs (bind m k).
Proof.
  intros Hm Hk s. unfold bind. specialize (Hm s).
  destruct (m s) as [[a | e] s1]; simpl in *; [| exact Hm].
  rewrite Hk. exact Hm.
Qed.

Lemma keeps_world_try_except {A} (m : M A) (h : exn -> M A) :
  keeps_world obs m -> (forall e, keeps_world obs (h e)) ->
  keeps_world obs (try_except m h).
Proof.
  intros Hm Hh s. unfold try_except. specialize (Hm s).
  destruct (m s) as [[a | e] s1]; simpl in *; [exact Hm |].
  rewrite Hh. exact Hm.
Qed.

Lemma keeps_world_for_each {A B} (l : list A) (acc : B)
    (body : A -> B -> M B) :
  (forall x b, keeps_world obs (body x b)) ->
  keeps_world obs (for_each l acc body).
Proof.
  intros Hbody. revert acc.
  induction l as [| x l IH]; intros acc; simpl.
  - apply keeps_world_ret.
  - apply keeps_world_bind; [apply Hbody | intros b; apply IH].
Qed.

Lemma keeps_world_when b m : keeps_world obs m -> keeps_world obs (when b m).
Proof. intros Hm. destruct b; simpl; [exact Hm | apply keeps_world_ret]. Qed.

Lemma keeps_world_attempt {A} (m : M A) :
  keeps_world obs m -> keeps_world obs (attempt m).
Proof.
  intros Hm s. unfold attempt. specialize (Hm s).
  destruct (m s) as [r s1]. exact Hm.
Qed.

Lemma keeps_world_lift {A} (r : result A) : keeps_world obs (lift r).
Proof. destruct r; [apply keeps_world_ret | apply keeps_world_raise]. Qed.

Lemma keeps_world_modify_world f :
  (forall w, obs (f w) = obs w) -> keeps_world obs (modify_world f).
Proof. intros Hf s. apply Hf. Qed.

Lemma keeps_world_ext {A} (f : nat -> result A) :
  (forall w, obs (bump w) = obs w) -> keeps_world obs (ext f).
Proof. intros Hb s. apply Hb. Qed.

Lemma keeps_world_datetime_now env fmt :
  (forall w, obs (bump w) = obs w) -> keeps_world obs (datetime_now env fmt).
Proof. intros Hb s. apply Hb. Qed.
End WorldInvariance.

#[export] Hint Resolve keeps_world_ret keeps_world_raise keeps_world_bind
  keeps_world_try_except keeps_world_for_each keeps_world_when : method.

(** Steps that touch neither the files nor the gauges. *)
Lemma keeps_files_ext {A} (f : nat -> result A) : keeps_world files (ext f).
Proof. apply keeps_world_ext. reflexivity. Qed.

Lemma keeps_files_logger lv msg : keeps_world files (logger lv msg).
Proof. apply keeps_world_modify_world. reflexivity. Qed.

Lemma keeps_files_gauge_set name labels v :
  keeps_world files (gauge_set name labels v).
Proof. apply keeps_world_modify_world. reflexivity. Qed.

Lemma keeps_gauges_ext {A} (f : nat -> result A) : keeps_world gauges (ext f).
Proof. apply keeps_world_ext. reflexivity. Qed.

Lemma keeps_gauges_logger lv msg : keeps_world gauges (logger lv msg).
Proof. apply keeps_world_modify_world. reflexivity. Qed.

#[export] Hint Resolve keeps_files_ext keeps_files_logger
  keeps_files_gauge_set keeps_gauges_ext keeps_gauges_logger : method.

Lemma keeps_files_calculate env r c :
  keeps_world files (_calculate_distribution_drift env r c).
Proof. unfold _calculate_distribution_drift. auto 6 with method. Qed.

Lemma keeps_gauges_calculate env r c :
  keeps_world gauges (_calculate_distribution_drift env r c).
Proof. unfold _calculate_distribution_drift. auto 6 with method. Qed.

#[export] Hint Resolve keeps_files_calculate keeps_gauges_calculate : method.

Lemma keeps_files_feature_block env d dm :
  keeps_world files (detect_feature_drift env d dm).
Proof.
  unfold detect_feature_drift. apply keeps_world_for_each.
  intros [name vals] b. simpl.
  destruct (Dict.get name (reference_features d)); auto with method.
  destruct (Py.len vals >? 0); auto 7 with method.
Qed.

Lemma keeps_files_prediction_block env d dm :
  keeps_world files (detect_prediction_drift env d dm).
Proof.
  unfold detect_prediction_drift. destruct (_ && _); auto 7 with method.
Qed.

Lemma keeps_files_anomalies_block env d dm :
  keeps_world files (detect_anomalies env d dm).
Proof.
  unfold detect_anomalies. destruct (isolation_forest d); auto 8 with method.
Qed.

Lemma keeps_files_push env d : keeps_world files (push_metrics env d).
Proof. unfold push_metrics. auto with method. Qed.

Lemma runs_bind_gen {A B} (m : M A) (k : A -> M B) s
    (Q : A -> State -> Prop) (P : B -> State -> Prop) :
  runs_to m s Q -> (forall a s1, Q a s1 -> runs_to (k a) s1 P) ->
  runs_to (bind m k) s P.
Proof.
  intros (a & s1 & E & HQ) Hk. unfold runs_to, bind. rewrite E.
  apply (Hk a s1 HQ).
Qed.

Lemma runs_block {A X} (obs : World -> X) (m : M A) s :
  total m -> preserves self_frame m -> keeps_world obs m ->
  runs_to m s
    (fun _ s1 => self s1 = self s /\ obs (world s1) = obs (world s)).
Proof.
  intros Ht Hs Ho. destruct (Ht s) as [a Ha].
  specialize (Hs s). specialize (Ho s). unfold runs_to.
  destruct (m s) as [r s1]. simpl in *. subst r.
  exists a, s1. split; [reflexivity | split; assumption].
Qed.

Lemma append_empty (s : string) : (s ++ EmptyString)%string = s.
Proof. induction s as [| c s IH]; simpl; [| rewrite IH]; reflexivity. Qed.

(** What [_log_drift_metrics] does to the files: it touches the metrics
    log only, and appends [log_suffix] to it. *)
Lemma log_drift_metrics_appends env dm s :
  runs_to (_log_drift_metrics env dm) s
    (fun _ s' =>
       let path := drift_log_path (self s) in
       self s' = self s /\
       (forall p, p <> path ->
          Dict.get p (files (world s')) = Dict.get p (files (world s))) /\
       file_content path (world s') =
         (file_content path (world s)
          ++ log_suffix env dm path (tick (world s)))%string).
Proof.
  unfold runs_to, _log_drift_metrics, drift_log_path, log_suffix.
  unfold bind at 1, get_self. cbv iota beta zeta.
  set (path := ("logs/" ++ model_name (self s) ++ "_drift.jsonl")%string).
  clearbody path.
  unfold try_except, with_open, file_open, file_write, bind, ext, attempt,
    lift, modify_world, logger, raise, ret. simpl.
  destruct (lib env (tick (world s)) (FileOpen path "a")) as [[] | e0]; simpl.
  - destruct (json_dumps env dm) as [line | e1]; simpl.
    + destruct (lib env (S (tick (world s))) (FileWrite path (line ++ nl)))
        as [[] | e2]; simpl;
        destruct (lib env (S (S (tick (world s)))) (FileClose path))
          as [[] | e3]; simpl; eexists; eexists;
          (split; [reflexivity |]); (split; [reflexivity |]); simpl;
          (split;
           [ intros p Hp; rewrite ?DictFacts.get_set_other by exact Hp;
             reflexivity
           | unfold file_content; simpl;
             rewrite ?DictFacts.get_set_same, ?append_empty; reflexivity ]).
    + destruct (lib env (S (tick (world s))) (FileClose path))
        as [[] | e3]; simpl; eexists; eexists;
        (split; [reflexivity |]); (split; [reflexivity |]); simpl;
        (split;
           [ intros p Hp; rewrite ?DictFacts.get_set_other by exact Hp;
             reflexivity
           | unfold file_content; simpl;
             rewrite ?DictFacts.get_set_same, ?append_empty; reflexivity ]).
  - eexists; eexists. split; [reflexivity |]. split; [reflexivity |].
    simpl. split; [reflexivity |]. rewrite append_empty. reflexivity.
Qed.

(** A drift check: the metrics returned, the reset, and the files. *)
Lemma detect_drift_effect env s :
  runs_to (detect_drift env) s
    (fun metrics s' =>
       let path := drift_log_path (self s) in
       self s' = _reset_current_data (self s) /\
       (forall p, p <> path ->
          Dict.get p (files (world s')) = Dict.get p (files (world s))) /\
       exists t,
         file_content path (world s') =
           (file_content path (world s)
            ++ log_suffix env metrics path t)%string).
Proof.
  unfold detect_drift.
  eapply runs_bind_gen.
  { apply (runs_block files); [auto with method | auto with method |].
    apply keeps_world_datetime_now. reflexivity. }
  intros ts s1 [Hs1 Hf1]. apply runs_get_self. rewrite Hs1.
  eapply runs_bind_gen.
  { apply (runs_block files);
      [apply total_detect_feature_drift | apply preserves_detect_feature_drift
      | apply keeps_files_feature_block]. }
  intros dm1 s2 [Hs2 Hf2].
  eapply runs_bind_gen.
  { apply (runs_block files);
      [apply total_detect_prediction_drift
      | apply preserves_detect_prediction_drift
      | apply keeps_files_prediction_block]. }
  intros dm2 s3 [Hs3 Hf3].
  eapply runs_bind_gen.
  { apply (runs_block files);
      [apply total_detect_anomalies | apply preserves_detect_anomalies
      | apply keeps_files_anomalies_block]. }
  intros dm3 s4 [Hs4 Hf4].
  eapply runs_bind_gen.
  { apply (runs_block files);
      [apply total_push_metrics | apply preserves_push_metrics
      | apply keeps_files_push]. }
  intros [] s5 [Hs5 Hf5].
  eapply runs_bind_gen; [apply log_drift_metrics_appends |].
  intros [] s6 (Hs6 & Hother & Hcontent).
  apply runs_modify_self. apply runs_ret. simpl.
  assert (Hself : self s5 = self s) by congruence.
  assert (Hfiles : files (world s5) = files (world s)) by congruence.
  rewrite Hself in Hother, Hcontent.
  split; [congruence |]. split.
  - intros p Hp. rewrite (Hother p Hp), Hfiles. reflexivity.
  - exists (tick (world s5)). rewrite Hcontent.
    unfold file_content. rewrite Hfiles. reflexivity.
Qed.

(** X12.  A drift check touches one file only, the metrics log of the
    model, and only appends to it.  What it appends is decided by the three
    library calls of the write: the line of the returned metrics followed
    by a newline when the file opens, the metrics serialise and the write
    succeeds, and nothing when one of the three fails.  So the line is
    appended whenever opening and writing the log succeed and the metrics
    serialise, and the log is unchanged whenever opening fails, the
    serialisation fails or writing fails. *)
Theorem drift_check_appends_to_log (env : Env) (s : State) :
  runs_to (detect_drift env) s
    (fun metrics s' =>
       let path := drift_log_path (self s) in
       (forall p, p <> path ->
          Dict.get p (files (world s')) = Dict.get p (files (world s))) /\
       (exists t,
          file_content path (world s') =
            (file_content path (world s)
             ++ log_suffix env metrics path t)%string) /\
       ((forall t, lib env t (FileOpen path "a") = Ret tt) ->
        (forall t data, lib env t (FileWrite path data) = Ret tt) ->
        forall line, json_dumps env metrics = Ret line ->
          file_content path (world s') =
            (file_content path (world s) ++ line ++ nl)%string) /\
       ((forall t, exists e, lib env t (FileOpen path "a") = Raise e) \/
        (exists e, json_dumps env metrics = Raise e) \/
        (forall t data, exists e, lib env t (FileWrite path data) = Raise e)
        -> file_content path (world s') = file_content path (world s))).
Proof.
  destruct (detect_drift_effect env s) as (dm & s' & E & _ & Hother & Hlog).
  exists dm, s'. split; [exact E |]. cbv zeta in *.
  destruct Hlog as [t Hlog].
  split; [exact Hother |]. split; [exists t; exact Hlog |]. split.
  - intros Hopen Hwrite line Hjson. rewrite Hlog. unfold log_suffix.
    rewrite Hopen, Hjson, Hwrite. reflexivity.
  - intros Hfail. rewrite Hlog. unfold log_suffix.
    destruct Hfail as [Hopen | [[e Hjson] | Hwrite]].
    + destruct (Hopen t) as [e He]. rewrite He. apply append_empty.
    + rewrite Hjson.
      destruct (lib env t (FileOpen _ "a")); apply append_empty.
    + destruct (lib env t (FileOpen _ "a")); [| apply append_empty].
      destruct (json_dumps env dm) as [line |]; [| apply append_empty].
      destruct (Hwrite (S t) (line ++ nl)%string) as [e He]. rewrite He.
      apply append_empty.
Qed.

(** A log that already holds a line: a check that succeeds appends the
    line of its metrics, a check whose file operations fail leaves the log
    as it was. *)
Lemma drift_check_appends_to_log_witness :
  let path := "logs/example_model_drift.jsonl"%string in
  let s := mkState (Examples.monitored "local")
             (mkWorld 0 [] [(path, "first"%string)] []) in
  file_content path (world (snd (detect_drift Examples.working_env s))) =
    ("first" ++ "{}" ++ nl)%string /\
  file_content path (world (snd (detect_drift Examples.failing_env s))) =
    "first"%string.
Proof.
  intros path s. split.
  - destruct (drift_check_appends_to_log Examples.working_env s)
      as (dm & s' & E & _ & _ & Hdone & _).
    rewrite E.
    apply (Hdone (fun _ => eq_refl) (fun _ _ => eq_refl) "{}"%string eq_refl).
  - destruct (drift_check_appends_to_log Examples.failing_env s)
      as (dm & s' & E & _ & _ & _ & Hfail).
    rewrite E. apply Hfail. left. intros t. eexists. reflexivity.
Defined.

(** ** Gauges *)

Section LocalStore.
Variable env : Env.
Variable d : DriftDetector.
Hypothesis Hstore : String.eqb (metrics_store d) "prometheus" = false.

Lemma keeps_gauges_feature_block dm :
  keeps_world gauges (detect_feature_drift env d dm).
Proof.
  unfold detect_feature_drift. apply keeps_world_for_each.
  intros [name vals] b. simpl. rewrite Hstore. cbn [when].
  destruct (Dict.get name (reference_features d)); auto with method.
  destruct (Py.len vals >? 0); auto 7 with method.
Qed.

Lemma keeps_gauges_prediction_block dm :
  keeps_world gauges (detect_prediction_drift env d dm).
Proof.
  unfold detect_prediction_drift. rewrite Hstore. cbn [when].
  destruct (_ && _); auto 7 with method.
Qed.

Lemma keeps_gauges_anomalies_block dm :
  keeps_world gauges (detect_anomalies env d dm).
Proof.
  unfold detect_anomalies. rewrite Hstore. cbn [when].
  destruct (isolation_forest d); auto 8 with method.
Qed.

Lemma keeps_gauges_push : keeps_world gauges (push_metrics env d).
Proof. unfold push_metrics. rewrite Hstore. apply keeps_world_ret. Qed.
End LocalStore.

Lemma keeps_gauges_file_open env path mode :
  keeps_world gauges (file_open env path mode).
Proof.
  unfold file_open. apply keeps_world_bind; [auto with method | intros _].
  apply keeps_world_modify_world. intros w.
  destruct (String.eqb mode "w"); reflexivity.
Qed.

Lemma keeps_gauges_file_write env path data :
  keeps_world gauges (file_write env path data).
Proof.
  unfold file_write. apply keeps_world_bind; [auto with method | intros _].
  apply keeps_world_modify_world. reflexivity.
Qed.

Lemma keeps_gauges_with_open {A} env path mode (body : M A) :
  keeps_world gauges body -> keeps_world gauges (with_open env path mode body).
Proof.
  intros Hb. unfold with_open.
  apply keeps_world_bind; [apply keeps_gauges_file_open | intros _].
  apply keeps_world_bind; [apply keeps_world_attempt; exact Hb | intros r].
  apply keeps_world_bind; [auto with method | intros _].
  destruct r; auto with method.
Qed.

Lemma keeps_gauges_log_drift_metrics env dm :
  keeps_world gauges (_log_drift_metrics env dm).
Proof.
  unfold _log_drift_metrics.
  apply keeps_world_bind; [intros s; reflexivity | intros d].
  apply keeps_world_try_except; [| auto with method].
  apply keeps_gauges_with_open.
  apply keeps_world_bind; [apply keeps_world_lift | intros line].
  apply keeps_gauges_file_write.
Qed.

(** X13.  With a metrics store other than prometheus, neither a drift
    check nor [add_observation] sets any gauge. *)
Theorem no_gauge_without_prometheus (env : Env) (s : State) :
  String.eqb (metrics_store (self s)) "prometheus" = false ->
  gauges (world (snd (detect_drift env s))) = gauges (world s) /\
  forall features prediction ground_truth,
    gauges (world (snd (add_observation env features prediction
                          ground_truth s))) = gauges (world s).
Proof.
  assert (Hdetect : forall s0,
    String.eqb (metrics_store (self s0)) "prometheus" = false ->
    gauges (world (snd (detect_drift env s0))) = gauges (world s0)).
  { intros s0 Hstore.
    assert (H : runs_to (detect_drift env) s0
                  (fun _ s' => gauges (world s') = gauges (world s0))).
    { unfold detect_drift.
      eapply runs_bind_gen.
      { apply (runs_block gauges); [auto with method | auto with method |].
        apply keeps_world_datetime_now. reflexivity. }
      intros ts s1 [Hs1 Hg1]. apply runs_get_self. rewrite Hs1.
      eapply runs_bind_gen.
      { apply (runs_block gauges);
          [apply total_detect_feature_drift
          | apply preserves_detect_feature_drift
          | apply keeps_gauges_feature_block; exact Hstore]. }
      intros dm1 s2 [Hs2 Hg2].
      eapply runs_bind_gen.
      { apply (runs_block gauges);
          [apply total_detect_prediction_drift
          | apply preserves_detect_prediction_drift
          | apply keeps_gauges_prediction_block; exact Hstore]. }
      intros dm2 s3 [Hs3 Hg3].
      eapply runs_bind_gen.
      { apply (runs_block gauges);
          [apply total_detect_anomalies | apply preserves_detect_anomalies
          | apply keeps_gauges_anomalies_block; exact Hstore]. }
      intros dm3 s4 [Hs4 Hg4].
      eapply runs_bind_gen.
      { apply (runs_block gauges);
          [apply total_push_metrics | apply preserves_push_metrics
          | apply keeps_gauges_push; exact Hstore]. }
      intros [] s5 [Hs5 Hg5].
      eapply runs_bind_gen.
      { apply (runs_block gauges);
          [apply total_log_drift_metrics | apply preserves_log_drift_metrics
          | apply keeps_gauges_log_drift_metrics]. }
      intros [] s6 [Hs6 Hg6].
      apply runs_modify_self. apply runs_ret. simpl. congruence. }
    destruct H as (a & s' & E & Hg). rewrite E. exact Hg. }
  intros Hstore. split; [apply Hdetect; exact Hstore |].
  intros features prediction ground_truth.
  unfold add_observation, bind at 1 2, modify_self, get_self. cbv iota beta.
  set (s1 := mkState _ _).
  destruct (is_ready (self s1)); [| reflexivity].
  unfold bind. pose proof (Hdetect s1 Hstore) as H.
  destruct (detect_drift env s1) as [[dm | e] s2]; exact H.
Qed.

(** A detector with reference data and observations, so that scores are
    computed: with the local store no gauge is set, while the same check
    with the prometheus store sets the gauges of the two scores. *)
Lemma no_gauge_without_prometheus_witness :
  gauges (world (snd (detect_drift Examples.working_env
    (mkState (Examples.monitored "local") Examples.fresh_world)))) = [] /\
  gauges (world (snd (detect_drift Examples.working_env
    (mkState (Examples.monitored "prometheus") Examples.fresh_world))))
  = [("model_prediction_drift"%string,
      ["example_model"%string; "1.0.0"%string], (1 - 0.5)%Q);
     ("model_feature_drift"%string,
      ["example_model"%string; "1.0.0"%string; "x"%string], (1 - 0.5)%Q)].
Proof.
  split.
  - apply (no_gauge_without_prometheus Examples.working_env
      (mkState (Examples.monitored "local") Examples.fresh_world)).
    reflexivity.
  - reflexivity.
Defined.

(** ** Loading a readable reference file *)

Lemma existsb_feature_columns data col :
  existsb (String.eqb col) (feature_columns_of data)
  = is_feature_column data col.
Proof.
  unfold feature_columns_of, is_feature_column, Dict.mem, Dict.keys.
  induction data as [| [k v] data IH]; [reflexivity |].
  simpl. destruct (String.eqb col k) eqn:Hk.
  - apply String.eqb_eq in Hk. subst k.
    destruct (String.eqb col "prediction") eqn:Hp; simpl.
    + rewrite IH. destruct (Dict.get col data); reflexivity.
    + rewrite String.eqb_refl. reflexivity.
  - destruct (String.eqb k "prediction"); simpl; rewrite ?Hk; exact IH.
Qed.

Lemma feature_columns_present data col :
  In col (feature_columns_of data) -> exists v, Dict.get col data = Some v.
Proof.
  intros Hin. apply mem_of_get.
  assert (H : is_feature_column data col = true).
  { rewrite <- existsb_feature_columns. apply existsb_exists.
    exists col. split; [exact Hin | apply String.eqb_refl]. }
  unfold is_feature_column in H. apply andb_true_iff in H. apply H.
Qed.

(** The loop of [_load_reference_data] over the feature columns. *)
Lemma load_columns_loop (data : DataFrame) (cols : list string) (s : State) :
  (forall col, In col cols -> exists v, Dict.get col data = Some v) ->
  exists d',
    for_each cols tt (fun col _ =>
      match Dict.get col data with
      | Some values =>
          modify_self (fun d =>
            set_reference (Dict.set col values (reference_features d))
                          (reference_predictions d) d) ;;;
          modify_self (fun d =>
            set_current (Dict.set col [] (current_features d))
                        (current_predictions d) d)
      | None => raise (Exception "KeyError" col)
      end) s = (Ret tt, mkState d' (world s)) /\
    (forall col,
       Dict.get col (reference_features d') =
       if existsb (String.eqb col) cols then Dict.get col data
       else Dict.get col (reference_features (self s))) /\
    (forall col,
       Dict.get col (current_features d') =
       if existsb (String.eqb col) cols then Some []
       else Dict.get col (current_features (self s))) /\
    reference_predictions d' = reference_predictions (self s) /\
    current_predictions d' = current_predictions (self s) /\
    isolation_forest d' = isolation_forest (self s).
Proof.
  revert s. induction cols as [| c cols IH]; intros s Hpresent.
  - exists (self s). destruct s. simpl. repeat split.
  - destruct (Hpresent c (or_introl eq_refl)) as [v Hv].
    simpl for_each. unfold bind at 1. rewrite Hv.
    unfold bind at 1, modify_self. cbv iota beta. simpl self. simpl world.
    set (d1 := set_current _ _ _).
    destruct (IH (mkState d1 (world s)))
      as (d' & E & Hrf & Hcf & Hrp & Hcp & Hforest).
    { intros col Hin. apply Hpresent. right. exact Hin. }
    exists d'. split; [exact E |]. simpl in Hrf, Hcf, Hrp, Hcp, Hforest.
    split; [| split; [| auto]].
    + intros col. rewrite Hrf. simpl existsb.
      destruct (String.eqb col c) eqn:Hc; simpl.
      * apply String.eqb_eq in Hc. subst c.
        destruct (existsb (String.eqb col) cols); [reflexivity |].
        rewrite DictFacts.get_set_same. symmetry. exact Hv.
      * apply String.eqb_neq in Hc.
        destruct (existsb (String.eqb col) cols); [reflexivity |].
        apply DictFacts.get_set_other. exact Hc.
    + intros col. rewrite Hcf. simpl existsb.
      destruct (String.eqb col c) eqn:Hc; simpl.
      * apply String.eqb_eq in Hc. subst c.
        destruct (existsb (String.eqb col) cols); [reflexivity |].
        apply DictFacts.get_set_same.
      * apply String.eqb_neq in Hc.
        destruct (existsb (String.eqb col) cols); [reflexivity |].
        apply DictFacts.get_set_other. exact Hc.
Qed.

(** X14.  When the reference file is read, every column but "prediction"
    becomes a reference feature with an empty current sequence, the
    "prediction" column becomes the reference predictions, and the current
    predictions are not touched.  The anomaly model is fitted on the
    feature columns; when fitting raises, the load still completes and
    reports success, leaving an unfitted model in place. *)
Theorem reference_data_loaded (env : Env) (path : string) (s : State)
    (data : DataFrame) :
  read_csv env (tick (world s)) path = Ret data ->
  exists s',
    _load_reference_data env path s = (Ret tt, s') /\
    let d := self s in
    let d' := self s' in
    let frame := select_columns (feature_columns_of data) data in
    (forall col,
       Dict.get col (reference_features d') =
       if is_feature_column data col then Dict.get col data
       else Dict.get col (reference_features d)) /\
    (forall col,
       Dict.get col (current_features d') =
       if is_feature_column data col then Some []
       else Dict.get col (current_features d)) /\
    reference_predictions d' =
      match Dict.get "prediction" data with
      | Some values => values
      | None => reference_predictions d
      end /\
    current_predictions d' = current_predictions d /\
    match lib env (S (tick (world s))) (IsolationForestFit frame) with
    | Ret _ =>
        isolation_forest d' = Some (Fitted frame) /\
        log (world s') =
          log (world s) ++
          [(INFO, "Trained anomaly detection model"%string);
           (INFO, ("Loaded reference data from " ++ path)%string)]
    | Raise e =>
        isolation_forest d' = Some Unfitted /\
        log (world s') =
          log (world s) ++
          [(ERROR,
            ("Failed to train anomaly detection model: "
             ++ exn_msg e)%string);
           (INFO, ("Loaded reference data from " ++ path)%string)]
    end.
Proof.
  intros Hread. cbv zeta.
  unfold _load_reference_data, try_except. unfold bind at 1, ext.
  rewrite Hread. cbv iota beta zeta.
  fold (feature_columns_of data).
  set (s1 := mkState (self s) (bump (world s))).
  destruct (load_columns_loop data (feature_columns_of data) s1
              (feature_columns_present data))
    as (d1 & Eloop & Hrf & Hcf & Hrp & Hcp & Hforest).
  unfold bind at 1. rewrite Eloop. clear Eloop.
  simpl in Hrf, Hcf, Hrp, Hcp, Hforest.
  assert (Hrf' : forall col,
            Dict.get col (reference_features d1) =
            if is_feature_column data col then Dict.get col data
            else Dict.get col (reference_features (self s)))
    by (intros col; rewrite Hrf, existsb_feature_columns; reflexivity).
  assert (Hcf' : forall col,
            Dict.get col (current_features d1) =
            if is_feature_column data col then Some []
            else Dict.get col (current_features (self s)))
    by (intros col; rewrite Hcf, existsb_feature_columns; reflexivity).
  clear Hrf Hcf.
  set (frame := select_columns (feature_columns_of data) data).
  unfold _train_anomaly_detector, try_except, bind, ext, modify_self,
    modify_world, logger, ret.
  destruct (Dict.get "prediction" data) as [values |];
    simpl; destruct (lib env (S (tick (world s))) (IsolationForestFit frame))
      as [[] | e]; simpl;
    eexists; (split; [reflexivity |]); simpl;
    rewrite <- ?app_assoc; simpl; auto 10.
Qed.

Lemma reference_data_loaded_witness :
  exists s',
    _load_reference_data Examples.working_env "data/reference_data.csv"
      (mkState Examples.blank Examples.fresh_world) = (Ret tt, s') /\
    Dict.get "x"%string (reference_features (self s')) =
      Some [Py.PyFloat 0.1; Py.PyFloat 0.2] /\
    Dict.get "prediction"%string (reference_features (self s')) = None /\
    reference_predictions (self s') = [Py.PyFloat 0.5; Py.PyFloat 0.6].
Proof.
  destruct (reference_data_loaded Examples.working_env
              "data/reference_data.csv"
              (mkState Examples.blank Examples.fresh_world)
              [("x"%string, [Py.PyFloat 0.1; Py.PyFloat 0.2]);
               ("prediction"%string, [Py.PyFloat 0.5; Py.PyFloat 0.6])]
              eq_refl)
    as (s' & E & Hrf & _ & Hrp & _).
  exists s'. split; [exact E |].
  split; [apply (Hrf "x"%string) |].
  split; [apply (Hrf "prediction"%string) | exact Hrp].
Defined.

(** * The report file *)

(** ** Strings and paths *)

Lemma append_assoc (a b c : string) :
  ((a ++ b) ++ c)%string = (a ++ (b ++ c))%string.
Proof. induction a as [| x a IH]; simpl; [| rewrite IH]; reflexivity. Qed.

Lemma length_append (a b : string) :
  String.length (a ++ b) = (String.length a + String.length b)%nat.
Proof. induction a as [| x a IH]; simpl; [| rewrite IH]; reflexivity. Qed.

Lemma suffix_inj (a b x y : string) :
  String.length x = String.length y ->
  (a ++ x)%string = (b ++ y)%string -> x = y.
Proof.
  revert b. induction a as [| c a IH]; intros [| c' b] Hlen E; simpl in E.
  - exact E.
  - exfalso. rewrite E in Hlen. simpl in Hlen.
    rewrite length_append in Hlen. lia.
  - exfalso. rewrite <- E in Hlen. simpl in Hlen.
    rewrite length_append in Hlen. lia.
  - inversion E. eapply IH; eassumption.
Qed.

Lemma report_path_ends_html output_path d timestamp :
  report_path_of output_path d timestamp =
  ((output_path ++ "/" ++ model_name d ++ "_drift_report_" ++ timestamp)
   ++ ".html")%string.
Proof. unfold report_path_of. rewrite !append_assoc. reflexivity. Qed.

Lemma report_path_not_log output_path d timestamp d' :
  report_path_of output_path d timestamp <> drift_log_path d'.
Proof.
  rewrite report_path_ends_html. unfold drift_log_path.
  change "_drift.jsonl"%string with ("_drift." ++ "jsonl")%string.
  rewrite <- !append_assoc. intros E.
  apply suffix_inj in E; [discriminate E | reflexivity].
Qed.

Lemma report_path_not_chart output_path d timestamp prefix name :
  report_path_of output_path d timestamp <>
  (prefix ++ "/charts/" ++ name ++ "_distribution.png")%string.
Proof.
  rewrite report_path_ends_html.
  change "_distribution.png"%string with ("_distributio" ++ "n.png")%string.
  rewrite <- !append_assoc. intros E.
  apply suffix_inj in E; [discriminate E | reflexivity].
Qed.

Lemma report_path_not_prediction_chart output_path d timestamp prefix :
  report_path_of output_path d timestamp <>
  (prefix ++ "/charts/prediction_distribution.png")%string.
Proof.
  rewrite report_path_ends_html.
  change "/charts/prediction_distribution.png"%string
    with ("/charts/prediction_distributio" ++ "n.png")%string.
  rewrite <- !append_assoc. intros E.
  apply suffix_inj in E; [discriminate E | reflexivity].
Qed.

Lemma drift_log_path_resets n d :
  drift_log_path (resets n d) = drift_log_path d.
Proof.
  induction n as [| n IH]; [reflexivity |].
  change (resets (S n) d) with (_reset_current_data (resets n d)).
  exact IH.
Qed.

(** ** What the report block writes *)

Lemma bind_ret_inv {A B} (m : M A) (k : A -> M B) s b s' :
  bind m k s = (Ret b, s') ->
  exists a s1, m s = (Ret a, s1) /\ k a s1 = (Ret b, s').
Proof.
  unfold bind. destruct (m s) as [[a | e] s1]; [eauto | discriminate].
Qed.

Lemma wrote_refl p s : wrote p EmptyString 0 s s.
Proof. split; [reflexivity | symmetry; apply append_empty]. Qed.

Lemma wrote_trans {p t1 t2 n1 n2 s s1 s2} :
  wrote p t1 n1 s s1 -> wrote p t2 n2 s1 s2 ->
  wrote p (t1 ++ t2)%string (n2 + n1) s s2.
Proof.
  intros [Hs1 Hc1] [Hs2 Hc2]. split.
  - rewrite Hs2, Hs1. unfold resets. symmetry. apply Nat.iter_add.
  - rewrite Hc2, Hc1. apply append_assoc.
Qed.

Lemma file_write_wrote env p data s u s' :
  file_write env p data s = (Ret u, s') -> wrote p data 0 s s'.
Proof.
  unfold file_write, bind, ext, modify_world.
  destruct (lib env (tick (world s)) (FileWrite p data)); [| discriminate].
  intros E. inversion E; subst. split; [reflexivity |].
  unfold file_content. simpl. rewrite DictFacts.get_set_same. reflexivity.
Qed.

Lemma file_open_truncates env p s u s' :
  file_open env p "w" s = (Ret u, s') ->
  self s' = self s /\ file_content p (world s') = EmptyString.
Proof.
  unfold file_open, bind, ext, modify_world.
  destruct (lib env (tick (world s)) (FileOpen p "w")); [| discriminate].
  intros E. inversion E; subst. split; [reflexivity |].
  unfold file_content. simpl. rewrite DictFacts.get_set_same. reflexivity.
Qed.

Lemma detect_drift_wrote env p s dm s' :
  p <> drift_log_path (self s) ->
  detect_drift env s = (Ret dm, s') ->
  wrote p EmptyString 1 s s' /\ checked env (self s) dm.
Proof.
  intros Hp E.
  destruct (detect_drift_effect env s) as (dm' & s1 & E1 & Hself & Hother & _).
  rewrite E in E1. inversion E1; subst dm' s1. split.
  - split; [exact Hself |]. unfold file_content.
    rewrite (Hother p Hp). symmetry. apply append_empty.
  - exists s, s'. split; [reflexivity | exact E].
Qed.

Lemma for_each_wrote {A} env p (f : A -> string) (l : list A) s u s' :
  for_each l tt (fun item _ => file_write env p (f item)) s = (Ret u, s') ->
  wrote p (join (map f l)) 0 s s'.
Proof.
  revert s. induction l as [| x l IH]; intros s E.
  - inversion E; subst. apply wrote_refl.
  - simpl in E. apply bind_ret_inv in E. destruct E as ([] & s1 & E1 & E).
    apply file_write_wrote in E1. apply IH in E.
    apply (wrote_trans E1 E).
Qed.

Lemma write_report_wrote env p s u s' :
  p <> drift_log_path (self s) ->
  write_report env p s = (Ret u, s') ->
  exists generated dm1 dm2 dm3,
    checked env (self s) dm1 /\
    checked env (resets 1 (self s)) dm2 /\
    checked env (resets 2 (self s)) dm3 /\
    wrote p (html_report env (self s) generated dm1 dm2 dm3) 3 s s'.
Proof.
  intros Hp E. unfold write_report in E.
  unfold bind at 1 2, get_self, datetime_now in E. cbv iota beta in E.
  set (generated := now env (tick (world s)) "%Y-%m-%d %H:%M:%S") in E.
  set (s0 := mkState (self s) (bump (world s))) in E.
  assert (H0 : wrote p EmptyString 0 s s0)
    by (split; [reflexivity | symmetry; apply append_empty]).
  apply bind_ret_inv in E. destruct E as ([] & s1 & E1 & E).
  apply file_write_wrote in E1.
  apply bind_ret_inv in E. destruct E as (dm1 & s2 & E2 & E).
  assert (Hs1 : self s1 = self s) by (destruct E1 as [-> _]; reflexivity).
  apply detect_drift_wrote with (p := p) in E2; [| rewrite Hs1; exact Hp].
  destruct E2 as [W2 C1]. rewrite Hs1 in C1.
  apply bind_ret_inv in E. destruct E as ([] & s3 & E3 & E).
  apply (for_each_wrote env p (feature_section env (self s))) in E3.
  apply bind_ret_inv in E. destruct E as (dm2 & s4 & E4 & E).
  assert (Hs3 : self s3 = resets 1 (self s)).
  { destruct E3 as [-> _]. destruct W2 as [-> _]. rewrite Hs1.
    reflexivity. }
  apply detect_drift_wrote with (p := p) in E4;
    [| rewrite Hs3, drift_log_path_resets; exact Hp].
  destruct E4 as [W4 C2]. rewrite Hs3 in C2.
  cbv zeta in E.
  apply bind_ret_inv in E. destruct E as ([] & s5 & E5 & E).
  apply file_write_wrote in E5.
  apply bind_ret_inv in E. destruct E as (dm3 & s6 & E6 & E).
  assert (Hs5 : self s5 = resets 2 (self s)).
  { destruct E5 as [-> _]. destruct W4 as [-> _]. rewrite Hs3.
    reflexivity. }
  apply detect_drift_wrote with (p := p) in E6;
    [| rewrite Hs5, drift_log_path_resets; exact Hp].
  destruct E6 as [W6 C3]. rewrite Hs5 in C3.
  apply bind_ret_inv in E. destruct E as ([] & s7 & E7 & E).
  apply file_write_wrote in E7. apply file_write_wrote in E.
  exists generated, dm1, dm2, dm3.
  split; [exact C1 |]. split; [exact C2 |]. split; [exact C3 |].
  pose proof (wrote_trans H0 (wrote_trans E1 (wrote_trans W2
    (wrote_trans E3 (wrote_trans W4 (wrote_trans E5 (wrote_trans W6
    (wrote_trans E7 E)))))))) as W.
  simpl in W. unfold html_report. exact W.
Qed.

Lemma with_open_ret_inv {A} env p mode (body : M A) s a s' :
  with_open env p mode body s = (Ret a, s') ->
  exists s1 s2,
    file_open env p mode s = (Ret tt, s1) /\
    body s1 = (Ret a, s2) /\
    self s' = self s2 /\ files (world s') = files (world s2).
Proof.
  unfold with_open. intros E.
  apply bind_ret_inv in E. destruct E as ([] & s1 & E1 & E).
  unfold bind at 1, attempt in E.
  destruct (body s1) as [r s2] eqn:Eb.
  unfold bind, ext in E.
  destruct (lib env (tick (world s2)) (FileClose p)); [| discriminate].
  destruct r as [a' | e]; [| discriminate].
  inversion E; subst. exists s1, s2. auto.
Qed.

Lemma keeps_content_set_file p q content :
  q <> p -> keeps_world (file_content p) (modify_world (set_file q content)).
Proof.
  intros Hq s. unfold file_content. simpl.
  rewrite DictFacts.get_set_other by congruence. reflexivity.
Qed.

Lemma keeps_content_ext {A} p (f : nat -> result A) :
  keeps_world (file_content p) (ext f).
Proof. apply keeps_world_ext. reflexivity. Qed.

Lemma keeps_content_chart env p reference current title q :
  q <> p ->
  keeps_world (file_content p)
    (distribution_chart env reference current title q).
Proof.
  intros Hq. unfold distribution_chart.
  do 6 (apply keeps_world_bind; [apply keeps_content_ext | intros _]).
  apply keeps_world_bind; [| intros _; apply keeps_content_ext].
  apply keeps_content_set_file. exact Hq.
Qed.

Lemma keeps_report_write_charts env output_path d timestamp :
  keeps_world (file_content (report_path_of output_path d timestamp))
    (write_charts env output_path).
Proof.
  set (p := report_path_of output_path d timestamp).
  unfold write_charts.
  apply keeps_world_bind.
  { unfold os_makedirs. destruct (os_is_bound env);
      [apply keeps_content_ext | apply keeps_world_raise]. }
  intros _. apply keeps_world_bind; [intros s; reflexivity | intros d0].
  apply keeps_world_bind.
  - apply keeps_world_for_each. intros name [].
    destruct (Dict.get name (reference_features d0));
      [| apply keeps_world_ret].
    destruct (Dict.get name (current_features d0));
      [| apply keeps_world_raise].
    apply keeps_content_chart. intros E. symmetry in E. revert E.
    apply report_path_not_chart.
  - intros _. apply keeps_content_chart. intros E. symmetry in E. revert E.
    apply report_path_not_prediction_chart.
Qed.

Lemma get_of_key {V} name (d : Dict.t V) :
  In name (Dict.keys d) -> exists v, Dict.get name d = Some v.
Proof.
  induction d as [| [k v] rest IH]; simpl; [contradiction |].
  intros [-> | Hin].
  - rewrite String.eqb_refl. eauto.
  - destruct (String.eqb name k); [eauto | apply IH; exact Hin].
Qed.

(** *** When every library call succeeds *)

Section Cooperating.
Variable env : Env.
Hypothesis Hlib : forall t c, lib env t c = Ret tt.

Lemma total_lib c : total (ext (fun t => lib env t c)).
Proof. intros s. exists tt. unfold ext. simpl. apply Hlib. Qed.

Lemma total_file_open p mode : total (file_open env p mode).
Proof.
  unfold file_open. apply total_bind; [apply total_lib | auto with method].
Qed.

Lemma total_file_write p data : total (file_write env p data).
Proof.
  unfold file_write. apply total_bind; [apply total_lib | auto with method].
Qed.

Lemma total_with_open {A} p mode (body : M A) :
  total body -> total (with_open env p mode body).
Proof.
  intros Hbody s. unfold with_open, bind at 1.
  destruct (total_file_open p mode s) as [[] Hopen].
  destruct (file_open env p mode s) as [r s1]. simpl in Hopen. subst r.
  unfold bind at 1, attempt. destruct (Hbody s1) as [a Ha].
  destruct (body s1) as [r s2]. simpl in Ha. subst r.
  unfold bind, ext. rewrite Hlib. exists a. reflexivity.
Qed.

Lemma total_write_report p : total (write_report env p).
Proof.
  pose proof (total_detect_drift env). pose proof total_file_write.
  unfold write_report. auto 20 with method.
Qed.

Lemma total_distribution_chart reference current title q :
  total (distribution_chart env reference current title q).
Proof.
  pose proof total_lib. unfold distribution_chart. auto 20 with method.
Qed.

Lemma total_for_each_in {A B} (l : list A) (acc : B) (body : A -> B -> M B) :
  (forall x b, In x l -> total (body x b)) -> total (for_each l acc body).
Proof.
  revert acc. induction l as [| x l IH]; intros acc Hbody; simpl.
  - apply total_ret.
  - apply total_bind; [apply Hbody; left; reflexivity |].
    intros b. apply IH. intros y c Hy. apply Hbody. right. exact Hy.
Qed.

Lemma total_write_charts output_path :
  os_is_bound env = true -> total (write_charts env output_path).
Proof.
  intros Hos. unfold write_charts.
  apply total_bind;
    [unfold os_makedirs; rewrite Hos; apply total_lib | intros _].
  apply total_bind; [auto with method | intros d].
  apply total_bind; [| intros _; apply total_distribution_chart].
  apply total_for_each_in. intros name [] Hin.
  destruct (Dict.get name (reference_features d)); [| apply total_ret].
  destruct (get_of_key name (current_features d) Hin) as [v ->].
  apply total_distribution_chart.
Qed.
End Cooperating.

(** ** The charts *)

Lemma ext_ret_inv {A} (f : nat -> result A) s a s' :
  ext f s = (Ret a, s') -> files (world s') = files (world s).
Proof.
  intros E. pose proof (keeps_files_ext f s) as H. rewrite E in H. exact H.
Qed.

Lemma distribution_chart_creates env reference current title q s u s' :
  distribution_chart env reference current title q s = (Ret u, s') ->
  Dict.mem q (files (world s')) = true.
Proof.
  unfold distribution_chart. intros E.
  do 6 (apply bind_ret_inv in E; destruct E as ([] & ? & _ & E)).
  apply bind_ret_inv in E. destruct E as ([] & s1 & E1 & E).
  apply ext_ret_inv in E. rewrite E.
  unfold modify_world in E1. inversion E1; subst. simpl.
  unfold Dict.mem. rewrite DictFacts.get_set_same. reflexivity.
Qed.

Lemma chart_loop_creates env output_path d names s u s' :
  for_each names tt (fun feature_name _ =>
    match Dict.get feature_name (reference_features d),
          Dict.get feature_name (current_features d) with
    | Some reference, Some current =>
        distribution_chart env reference current
          (feature_name ++ " Distribution Comparison")
          (output_path ++ "/charts/" ++ feature_name ++ "_distribution.png")
    | Some _, None => raise (Exception "KeyError" feature_name)
    | None, _ => ret tt
    end) s = (Ret u, s') ->
  forall name,
    In name names -> Dict.mem name (reference_features d) = true ->
    Dict.mem (feature_chart_path output_path name) (files (world s')) = true.
Proof.
  revert s. induction names as [| x names IH]; intros s E name Hin Href.
  - destruct Hin.
  - simpl in E. apply bind_ret_inv in E. destruct E as ([] & s1 & E1 & E).
    destruct Hin as [-> | Hin]; [| apply (IH s1 E name Hin Href)].
    unfold Dict.mem in Href.
    destruct (Dict.get name (reference_features d)) as [reference |];
      [| discriminate Href].
    destruct (Dict.get name (current_features d)) as [current |];
      [| discriminate E1].
    apply distribution_chart_creates in E1.
    match type of E with
    | for_each ?l ?a ?body s1 = _ =>
        assert (Hrest : preserves files_frame (for_each l a body))
    end.
    { apply preserves_for_each. intros y [].
      destruct (Dict.get y (reference_features d)); [| auto with method].
      destruct (Dict.get y (current_features d));
        [apply preserves_distribution_chart | auto with method]. }
    specialize (Hrest s1 _ E1). rewrite E in Hrest. exact Hrest.
Qed.

Lemma write_charts_creates env output_path s u s' :
  write_charts env output_path s = (Ret u, s') ->
  charts_written output_path (self s) (world s').
Proof.
  unfold write_charts. intros E.
  apply bind_ret_inv in E. destruct E as ([] & s1 & E1 & E).
  assert (Hs1 : self s1 = self s).
  { assert (H : preserves self_frame
                  (os_makedirs env (output_path ++ "/charts")))
      by (unfold os_makedirs; destruct (os_is_bound env); auto with method).
    specialize (H s). rewrite E1 in H. exact H. }
  unfold bind at 1, get_self in E. rewrite Hs1 in E.
  apply bind_ret_inv in E. destruct E as ([] & s2 & E2 & E).
  split.
  - apply distribution_chart_creates in E. exact E.
  - intros name Hin Href.
    pose proof (chart_loop_creates env output_path (self s) _ s1 tt s2 E2
                  name Hin Href) as Hmem.
    pose proof (preserves_distribution_chart files_frame env
                  (reference_predictions (self s))
                  (current_predictions (self s))
                  "Prediction Distribution Comparison"
                  (output_path ++ "/charts/prediction_distribution.png")
                  s2 _ Hmem) as Hkept.
    rewrite E in Hkept. exact Hkept.
Qed.

Lemma reference_features_resets n d :
  reference_features (resets n d) = reference_features d.
Proof.
  induction n as [| n IH]; [reflexivity |].
  change (resets (S n) d) with (_reset_current_data (resets n d)).
  exact IH.
Qed.

Lemma current_feature_names_resets n d :
  Dict.keys (current_features (resets n d)) = Dict.keys (current_features d).
Proof.
  induction n as [| n IH]; [reflexivity |].
  change (resets (S n) d) with (_reset_current_data (resets n d)).
  rewrite reset_features, DictFacts.keys_map_values. exact IH.
Qed.

Lemma charts_written_resets output_path n d w :
  charts_written output_path (resets n d) w <->
  charts_written output_path d w.
Proof.
  unfold charts_written.
  rewrite reference_features_resets, current_feature_names_resets. tauto.
Qed.

(** ** The outcome of [generate_drift_report] *)

(** C9.  [generate_drift_report] always returns, with the timestamped path
    of the report or with the empty string.  With the path: the file at
    that path exists and holds the report (header, one section per feature
    score of a drift check on the detector, the prediction section of a
    second check, the anomaly section of a third, footer), the chart of the
    predictions and the chart of every current feature with reference
    values exist, and the last record logged is the INFO record naming the
    path.  With the empty string: the last record logged is the ERROR
    record of the failure.  The path is returned when the module runs as a
    script and every library call succeeds; the empty string is returned
    when the name [os] is unbound, and when opening the report file raises,
    in which case the ERROR record of that exception is the only record
    added to the log. *)
Theorem generate_drift_report_outcome (env : Env) (output_path : string)
    (s : State) :
  let timestamp := now env (tick (world s)) "%Y%m%d_%H%M%S" in
  let report_path := report_path_of output_path (self s) timestamp in
  exists path s',
    generate_drift_report env output_path s = (Ret path, s') /\
    ((path = report_path /\
      Dict.mem report_path (files (world s')) = true /\
      report_written env (self s) report_path (world s') /\
      charts_written output_path (self s) (world s') /\
      exists records,
        log (world s') =
        records ++ [(INFO,
          ("Generated drift report at: " ++ report_path)%string)]) \/
     (path = EmptyString /\
      exists records e,
        log (world s') =
        records ++ [(ERROR,
          ("Failed to generate drift report: " ++ exn_msg e)%string)])) /\
    (os_is_bound env = true -> (forall t c, lib env t c = Ret tt) ->
     path = report_path) /\
    (os_is_bound env = false -> path = EmptyString) /\
    (forall e,
       lib env (S (tick (world s))) (FileOpen report_path "w") = Raise e ->
       path = EmptyString /\
       log (world s') =
       log (world s) ++ [(ERROR,
         ("Failed to generate drift report: " ++ exn_msg e)%string)]).
Proof.
  intros timestamp report_path.
  unfold generate_drift_report, bind at 1 2, datetime_now, get_self.
  cbv iota beta. fold timestamp. simpl self. fold report_path.
  set (s1 := mkState (self s) (bump (world s))).
  unfold try_except.
  destruct ((with_open env report_path "w" (write_report env report_path) ;;;
             write_charts env output_path ;;;
             logger INFO ("Generated drift report at: " ++ report_path) ;;;
             ret report_path) s1) as [[path | e] s2] eqn:Ebody.
  - exists path, s2. split; [reflexivity |].
    apply bind_ret_inv in Ebody. destruct Ebody as ([] & s3 & E1 & E).
    apply bind_ret_inv in E. destruct E as ([] & s4 & E2 & E).
    unfold bind, logger, modify_world, ret in E. inversion E; subst path s2.
    clear E. split; [| split; [| split]].
    + left. split; [reflexivity |].
      pose proof (with_open_creates _ _ _ _ _ _ _
                    (preserves_files_write_report env report_path) E1)
        as Hmem.
      pose proof (preserves_files_write_charts env output_path s3
                    report_path Hmem) as Hmem4.
      rewrite E2 in Hmem4. simpl in Hmem4.
      split; [exact Hmem4 |].
      apply with_open_ret_inv in E1.
      destruct E1 as (sa & sb & Eopen & Ebody & Hself3 & Hfiles3).
      apply file_open_truncates in Eopen. destruct Eopen as [Hsa Hempty].
      apply write_report_wrote in Ebody;
        [| rewrite Hsa; apply report_path_not_log].
      destruct Ebody as (generated & dm1 & dm2 & dm3 & C1 & C2 & C3 & W).
      rewrite Hsa in C1, C2, C3, W. simpl self in C1, C2, C3, W.
      split; [| split; [| simpl; eauto]].
      * exists generated, dm1, dm2, dm3.
        split; [exact C1 |]. split; [exact C2 |]. split; [exact C3 |].
        pose proof (keeps_report_write_charts env output_path (self s)
                      timestamp s3) as Hcharts.
        fold report_path in Hcharts. rewrite E2 in Hcharts.
        simpl in Hcharts.
        change (file_content report_path (world s4)
                = html_report env (self s) generated dm1 dm2 dm3).
        rewrite Hcharts. unfold file_content at 1. rewrite Hfiles3.
        fold (file_content report_path (world sb)).
        destruct W as [_ ->]. rewrite Hempty. reflexivity.
      * pose proof (write_charts_creates env output_path s3 tt s4 E2)
          as Hwritten.
        destruct W as [Hsb _]. rewrite Hself3, Hsb, Hsa in Hwritten.
        apply (charts_written_resets output_path 3 (self s)) in Hwritten.
        exact Hwritten.
    + intros _ _. reflexivity.
    + intros Hos. exfalso. revert E2.
      unfold write_charts, bind at 1, os_makedirs. rewrite Hos.
      discriminate.
    + intros e Hopen. exfalso. revert E1.
      unfold with_open, bind at 1, file_open, bind at 1, ext.
      simpl. rewrite Hopen. discriminate.
  - exists EmptyString. eexists. split; [reflexivity |].
    split; [| split; [| split]].
    + right. split; [reflexivity |]. simpl. eauto.
    + intros Hos Hlib. exfalso.
      assert (Htotal : total
        (with_open env report_path "w" (write_report env report_path) ;;;
         write_charts env output_path ;;;
         logger INFO ("Generated drift report at: " ++ report_path) ;;;
         ret report_path)).
      { apply total_bind;
          [apply (total_with_open env Hlib);
           apply (total_write_report env Hlib) | intros _].
        apply total_bind;
          [apply (total_write_charts env Hlib); exact Hos | intros _].
        auto with method. }
      destruct (Htotal s1) as [a Ha]. rewrite Ebody in Ha. discriminate Ha.
    + intros _. reflexivity.
    + intros e0 Hopen. split; [reflexivity |].
      revert Ebody.
      unfold with_open, bind at 1 2, file_open, bind at 1, ext.
      simpl. rewrite Hopen. intros E. inversion E; subst. reflexivity.
Qed.

(** The three cases on a detector with reference data and observations:
    every call succeeds, the module is imported, every call fails. *)
Lemma generate_drift_report_outcome_witness :
  let s := mkState (Examples.monitored "local") Examples.fresh_world in
  let path :=
    "reports/example_model_drift_report_20240101_000000.html"%string in
  let written := generate_drift_report Examples.working_env "reports" s in
  let imported := generate_drift_report Examples.imported_env "reports" s in
  let failed := generate_drift_report Examples.failing_env "reports" s in
  (fst written = Ret path /\
   report_written Examples.working_env (self s) path (world (snd written)) /\
   Dict.mem "reports/charts/x_distribution.png"
     (files (world (snd written))) = true /\
   Dict.mem "reports/charts/prediction_distribution.png"
     (files (world (snd written))) = true) /\
  fst imported = Ret EmptyString /\
  (fst failed = Ret EmptyString /\
   log (world (snd failed)) =
     [(ERROR,
       "Failed to generate drift report: library call failed"%string)]).
Proof.
  intros s path written imported failed. split; [| split].
  - destruct (generate_drift_report_outcome Examples.working_env "reports" s)
      as (p & s' & E & Hcases & Hok & _).
    specialize (Hok eq_refl (fun _ _ => eq_refl)).
    subst written. rewrite E. simpl fst. simpl snd.
    destruct Hcases as [(_ & _ & Hwritten & Hcharts & _) | (Hp & _)].
    + split; [rewrite Hok; reflexivity |]. split; [exact Hwritten |].
      destruct Hcharts as [Hprediction Hfeatures].
      split; [| exact Hprediction].
      apply (Hfeatures "x"%string); [left |]; reflexivity.
    + rewrite Hp in Hok. discriminate Hok.
  - destruct (generate_drift_report_outcome Examples.imported_env
                "reports" s) as (p & s' & E & _ & _ & Himp & _).
    subst imported. rewrite E. simpl. rewrite (Himp eq_refl). reflexivity.
  - destruct (generate_drift_report_outcome Examples.failing_env
                "reports" s) as (p & s' & E & _ & _ & _ & Hopen).
    subst failed. rewrite E. simpl.
    destruct (Hopen (Exception "OSError" "library call failed") eq_refl)
      as [Hp Hlog].
    split; [rewrite Hp; reflexivity | exact Hlog].
Defined.
